(** * Quote Jar: the session-scoped quote store of [app.js]

    A shallow embedding of the Express application in [src/app.js] (users,
    sessions, and quotes filtered by owner) and of the sessionless
    variant in [src/unnamed/part_000], followed by the properties of
    the route handlers.

    What is modelled and how:
    - the two Sequelize tables as lists of rows in insertion order, each with
      its auto-increment counter;
    - the Sequelize calls the handlers make ([findOne], [findAll], [create],
      [update], [destroy]) as computations in a small monad that threads the
      database, may throw, and records every call in a log;
    - the express-session store as a finite map from session ids to session
      data; a request carries its cookie and the id a new session would get;
    - a key of [req.body] as missing ([undefined] in the handler), null or
      a text: the urlencoded parser gives the first or the last, the JSON
      parser any of the three (numbers, arrays and objects in a JSON body
      are left out);
    - [req.params.id] as the integer it denotes; timestamps as integers
      (milliseconds), supplied by the request.

    The 24 hour cookie lifetime and the Handlebars templates are outside the
    model. *)

From stdpp Require Import base list gmap strings sorting.

Set Warnings "-register-all".

Local Open Scope string_scope.
Local Open Scope list_scope.
Local Open Scope Z_scope.

(** ** JavaScript values reaching the model layer *)

(** The values a string column can be given by the handlers. *)
Inductive jsval :=
  | Undefined
  | Null
  | Str (s : string).

Global Instance jsval_eq_dec : EqDecision jsval.
Proof. solve_decision. Defined.

(** A field of a posted form as the handler destructures it from
    [req.body]: missing, or the text typed in. *)
Definition field (f : option string) : jsval :=
  match f with
  | Some s => Str s
  | None => Undefined
  end.

(** Where a body value is expected, a form field stands for what it is
    parsed to. *)
#[warning="-uniform-inheritance"]
Coercion field : option >-> jsval.

(** [v || null]: among the values above only a non-empty text is truthy. *)
Definition or_null (v : jsval) : jsval :=
  match v with
  | Str s => if bool_decide (s = "") then Null else Str s
  | _ => Null
  end.

(** What is written in a nullable string column. *)
Definition column (v : jsval) : option string :=
  match v with
  | Str s => Some s
  | _ => None
  end.

(** ** Rows *)

(** [sequelize.define('User', { username })], with the primary key and the
    timestamps Sequelize adds. *)
Record User := mkUser {
  u_id : Z;
  username : string;
  u_createdAt : Z;
  u_updatedAt : Z
}.

(** [sequelize.define('Quote', { quoteText, personName, location, date })];
    [Quote.belongsTo(User)] adds the nullable foreign key [UserId]. *)
Record Quote := mkQuote {
  q_id : Z;
  quoteText : string;
  personName : string;
  location : option string;
  date : option string;
  createdAt : Z;
  updatedAt : Z;
  UserId : option Z
}.

Global Instance User_eq_dec : EqDecision User.
Proof. solve_decision. Defined.

Global Instance Quote_eq_dec : EqDecision Quote.
Proof. solve_decision. Defined.

Record DB := mkDB {
  Users : list User;
  Quotes : list Quote;
  UsersSeq : Z;
  QuotesSeq : Z
}.

Definition empty_db : DB := mkDB [] [] 0 0.

(** ** Queries *)

(** A [where] object on the quotes table; [None] is a key left out. *)
Record QuoteWhere := mkWhere {
  w_id : option Z;
  w_UserId : option Z
}.

(** The attribute object given to [Quote.create] and [Quote.update];
    [v_UserId = None] is the key left out. *)
Record QuoteValues := mkValues {
  v_quoteText : jsval;
  v_personName : jsval;
  v_location : jsval;
  v_date : jsval;
  v_UserId : option Z
}.

Inductive Query :=
  | User_findOne_q (name : jsval)
  | User_create_q (name : jsval)
  | Quote_findAll_q (w : QuoteWhere) (ordered : bool)
  | Quote_findOne_q (w : QuoteWhere)
  | Quote_create_q (v : QuoteValues)
  | Quote_update_q (v : QuoteValues) (w : QuoteWhere)
  | Quote_destroy_q (w : QuoteWhere).

(** The [where] object of a query on quotes, when it has one. *)
Definition query_where (q : Query) : option QuoteWhere :=
  match q with
  | Quote_findAll_q w _ | Quote_findOne_q w
  | Quote_update_q _ w | Quote_destroy_q w => Some w
  | _ => None
  end.

(** ** The monad of model calls *)

Inductive Err :=
  | ValidationError
  | UniqueConstraintError
  | ForeignKeyConstraintError
  | QueryError.

Inductive result (A : Type) :=
  | Ok (a : A)
  | Throw (e : Err).
Arguments Ok {A} a.
Arguments Throw {A} e.

(** A computation reads the database and yields a result, the database
    after it, and the calls it made, oldest first. *)
Definition M (A : Type) : Type := DB → result A * DB * list Query.

Definition ret {A} (a : A) : M A := λ d, (Ok a, d, []).

Definition throw {A} (e : Err) : M A := λ d, (Throw e, d, []).

Definition bind {A B} (m : M A) (k : A → M B) : M B := λ d,
  match m d with
  | (Ok a, d1, l1) =>
      match k a d1 with
      | (r, d2, l2) => (r, d2, l1 ++ l2)
      end
  | (Throw e, d1, l1) => (Throw e, d1, l1)
  end.

Definition issue (q : Query) : M unit := λ d, (Ok (), d, [q]).

Definition get_db : M DB := λ d, (Ok d, d, []).

Definition put_db (d : DB) : M unit := λ _, (Ok (), d, []).

Declare Scope db_scope.
Delimit Scope db_scope with db.
Notation "'let*' x := m 'in' k" := (bind m (λ x, k))
  (at level 10, x name, m at level 100, k at level 200) : db_scope.
Local Open Scope db_scope.

(** ** The Sequelize calls *)

Definition has_username (s : string) (u : User) : bool :=
  bool_decide (username u = s).

(** [User.findOne({ where: { username } })]. An [undefined] value in a
    [where] object is refused by the query builder; [null] selects the rows
    whose username is NULL, of which there are none. *)
Definition User_findOne (name : jsval) : M (option User) :=
  let* _ := issue (User_findOne_q name) in
  let* d := get_db in
  match name with
  | Undefined => throw QueryError
  | Null => ret None
  | Str s => ret (head (filter (λ u, has_username s u) (Users d)))
  end.

(** [User.create({ username })]: validation first ([allowNull: false]
    rejects [null] and [undefined]; any text, the empty one included,
    passes), then the insert, which the unique index on [username] may
    refuse. *)
Definition User_create (now : Z) (name : jsval) : M User :=
  let* _ := issue (User_create_q name) in
  let* d := get_db in
  match name with
  | Str s =>
      if bool_decide (Exists (λ u, has_username s u) (Users d))
      then throw UniqueConstraintError
      else
        let u := mkUser (UsersSeq d + 1) s now now in
        let* _ := put_db (mkDB (Users d ++ [u]) (Quotes d) (UsersSeq d + 1) (QuotesSeq d)) in
        ret u
  | _ => throw ValidationError
  end.

(** A row satisfies a [where] object when it agrees on every key present. *)
Definition matches (w : QuoteWhere) (q : Quote) : bool :=
  match w_id w with
  | Some i => bool_decide (q_id q = i)
  | None => true
  end &&
  match w_UserId w with
  | Some u => bool_decide (UserId q = Some u)
  | None => true
  end.

(** [ORDER BY createdAt DESC]: a row comes no later than the rows created
    no later than it. *)
Definition newer_first (q1 q2 : Quote) : Prop := createdAt q2 ≤ createdAt q1.

Global Instance newer_first_dec : RelDecision newer_first.
Proof. intros q1 q2. unfold newer_first. apply _. Defined.

(** [Quote.findAll({ where, order: [['createdAt', 'DESC']] })], the order
    being optional. Without it the rows come in table order. Rows created
    at the same instant come as the sort leaves them; the database does not
    fix their order and no statement below depends on it. *)
Definition Quote_findAll (w : QuoteWhere) (ordered : bool) : M (list Quote) :=
  let* _ := issue (Quote_findAll_q w ordered) in
  let* d := get_db in
  let rows := filter (λ q, matches w q) (Quotes d) in
  ret (if ordered then merge_sort newer_first rows else rows).

(** [Quote.findOne({ where })] *)
Definition Quote_findOne (w : QuoteWhere) : M (option Quote) :=
  let* _ := issue (Quote_findOne_q w) in
  let* d := get_db in
  ret (head (filter (λ q, matches w q) (Quotes d))).

Definition user_exists (d : DB) (u : Z) : bool :=
  bool_decide (Exists (λ r, u_id r = u) (Users d)).

(** The foreign key of [belongsTo]: NULL, or the id of a user. *)
Definition fk_ok (d : DB) (o : option Z) : bool :=
  match o with
  | Some u => user_exists d u
  | None => true
  end.

(** [Quote.create(values)]: both required attributes are validated, then
    the row is inserted with the next id and both timestamps set. *)
Definition Quote_create (now : Z) (v : QuoteValues) : M Quote :=
  let* _ := issue (Quote_create_q v) in
  let* d := get_db in
  match v_quoteText v, v_personName v with
  | Str t, Str p =>
      if fk_ok d (v_UserId v) then
        let q := mkQuote (QuotesSeq d + 1) t p (column (v_location v))
                   (column (v_date v)) now now (v_UserId v) in
        let* _ := put_db (mkDB (Users d) (Quotes d ++ [q]) (UsersSeq d) (QuotesSeq d + 1)) in
        ret q
      else throw ForeignKeyConstraintError
  | _, _ => throw ValidationError
  end.

(** One attribute of a bulk update: [undefined] leaves the column alone
    ([null] for a required attribute is refused before any row is
    written). *)
Definition set_required (v : jsval) (old : string) : string :=
  match v with
  | Str s => s
  | _ => old
  end.

Definition set_nullable (v : jsval) (old : option string) : option string :=
  match v with
  | Undefined => old
  | Null => None
  | Str s => Some s
  end.

Definition set_owner (v : option Z) (old : option Z) : option Z :=
  match v with
  | Some u => Some u
  | None => old
  end.

Definition apply_values (now : Z) (v : QuoteValues) (q : Quote) : Quote :=
  mkQuote (q_id q)
    (set_required (v_quoteText v) (quoteText q))
    (set_required (v_personName v) (personName q))
    (set_nullable (v_location v) (location q))
    (set_nullable (v_date v) (date q))
    (createdAt q) now
    (set_owner (v_UserId v) (UserId q)).

(** [Quote.update(values, { where })]: the keys whose value is [undefined]
    are dropped from [values], the remaining ones are validated (a required
    attribute may not be [null]), and every matching row is rewritten.
    Yields the number of rows affected. *)
Definition Quote_update (now : Z) (v : QuoteValues) (w : QuoteWhere) : M nat :=
  let* _ := issue (Quote_update_q v w) in
  let* d := get_db in
  if bool_decide (v_quoteText v = Null) || bool_decide (v_personName v = Null)
  then throw ValidationError
  else if fk_ok d (v_UserId v) then
    let* _ := put_db (mkDB (Users d)
              ((λ q, if matches w q then apply_values now v q else q) <$> Quotes d)
              (UsersSeq d) (QuotesSeq d)) in
    ret (length (filter (λ q, matches w q) (Quotes d)))
  else throw ForeignKeyConstraintError.

(** [Quote.destroy({ where })]: yields the number of rows deleted. *)
Definition Quote_destroy (w : QuoteWhere) : M nat :=
  let* _ := issue (Quote_destroy_q w) in
  let* d := get_db in
  let* _ := put_db (mkDB (Users d) (filter (λ q, ¬ matches w q) (Quotes d))
            (UsersSeq d) (QuotesSeq d)) in
  ret (length (filter (λ q, matches w q) (Quotes d))).

(** ** Handlers: what they read, what they answer *)

(** [req.session]: both keys are absent until a login sets them. *)
Record Session := mkSession {
  userId : option Z;
  sess_username : option string
}.

Definition new_session : Session := mkSession None None.

(** Truthiness of [req.session.userId]: absent and [0] are falsy. *)
Definition truthy (o : option Z) : bool :=
  match o with
  | Some n => negb (bool_decide (n = 0))
  | None => false
  end.

(** The document [JSON.stringify] writes, as a tree. *)
Inductive Json :=
  | JNull
  | JNum (n : Z)
  | JStr (s : string)
  | JArr (items : list Json)
  | JObj (members : list (string * Json)).

Definition json_text (o : option string) : Json :=
  match o with
  | Some s => JStr s
  | None => JNull
  end.

Definition json_num (o : option Z) : Json :=
  match o with
  | Some n => JNum n
  | None => JNull
  end.

(** A model instance serializes all its columns, the internal ones
    included (timestamps are kept as numbers here). *)
Definition Quote_toJSON (q : Quote) : Json :=
  JObj [("id", JNum (q_id q));
        ("quoteText", JStr (quoteText q));
        ("personName", JStr (personName q));
        ("location", json_text (location q));
        ("date", json_text (date q));
        ("createdAt", JNum (createdAt q));
        ("updatedAt", JNum (updatedAt q));
        ("UserId", json_num (UserId q))].

Definition JSON_stringify (quotes : list Quote) : Json :=
  JArr (Quote_toJSON <$> quotes).

(** The template rendered and the locals it is given (titles left out). *)
Inductive View :=
  | landing
  | home (quotes : list Quote) (user : option string)
  | add_quote (user : option string)
  | edit_quote (quote : Quote) (user : option string)
  | stats (quotesJSON : Json) (user : option string)
  | game (error : option string) (quotes : option (list Quote))
         (quotesJSON : option Json) (user : option string).

Inductive Response :=
  | redirect (path : string)
  | render (v : View)
  | send (status : Z) (body : string).

(** A posted quote form; [None] is a field missing from the body. *)
Record QuoteForm := mkForm {
  f_quoteText : option string;
  f_personName : option string;
  f_location : option string;
  f_date : option string
}.

(** [req.body] of a quote post as the handlers destructure it. With
    [express.urlencoded] and [express.json] both mounted, a key is missing,
    null (in a JSON body) or a text. *)
Record QuoteBody := mkBody {
  b_quoteText : jsval;
  b_personName : jsval;
  b_location : jsval;
  b_date : jsval
}.

(** The body a posted form is parsed to; a form stands for it where a
    body is expected. *)
Definition parsed (f : QuoteForm) : QuoteBody :=
  mkBody (field (f_quoteText f)) (field (f_personName f))
         (field (f_location f)) (field (f_date f)).

Coercion parsed : QuoteForm >-> QuoteBody.

(** A handler body with its [catch] block: it always answers. *)
Definition H (A : Type) : Type := DB → A * DB * list Query.

Definition respond {A} (a : A) : H A := λ d, (a, d, []).

(** [try { body } catch (error) { ... }], the catch block only answering. *)
Definition try_catch {A} (body : M A) (handler : Err → A) : H A := λ d,
  match body d with
  | (Ok a, d1, l1) => (a, d1, l1)
  | (Throw e, d1, l1) => (handler e, d1, l1)
  end.

Module App.

(** [requireLogin]: without a truthy [req.session.userId] the request is
    redirected and [next] is not called. The continuation is handed the
    value the handler will read as [req.session.userId]. *)
Definition requireLogin (sess : Session) (next : Z → H Response) : H Response :=
  match userId sess with
  | Some uid =>
      if bool_decide (uid = 0) then respond (redirect "/") else next uid
  | None => respond (redirect "/")
  end.

(** [GET /] *)
Definition get_landing (sess : Session) : H Response :=
  if truthy (userId sess) then respond (redirect "/home")
  else respond (render landing).

(** [POST /login]: find or create the user, then bind the session. The
    session save of the default in-memory store does not fail. *)
Definition post_login (now : Z) (name : jsval) (sess : Session)
  : H (Response * Session) :=
  try_catch
    (let* found := User_findOne name in
     let* user :=
       match found with
       | Some u => ret u
       | None => User_create now name
       end in
     ret (redirect "/home",
          mkSession (Some (u_id user)) (Some (username user))))
    (λ _, (send 500 "Error logging in", sess)).

(** [GET /home] *)
Definition get_home (sess : Session) : H Response :=
  requireLogin sess (λ uid,
    try_catch
      (let* quotes := Quote_findAll (mkWhere None (Some uid)) true in
       ret (render (home quotes (sess_username sess))))
      (λ _, send 500 "Error loading quotes")).

(** [GET /add-quote] *)
Definition get_add_quote (sess : Session) : H Response :=
  requireLogin sess (λ _, respond (render (add_quote (sess_username sess)))).

(** [POST /add-quote] *)
Definition post_add_quote (now : Z) (body : QuoteBody) (sess : Session)
  : H Response :=
  requireLogin sess (λ uid,
    try_catch
      (let* _ := Quote_create now
                   (mkValues (b_quoteText body)
                             (b_personName body)
                             (or_null (b_location body))
                             (or_null (b_date body))
                             (Some uid)) in
       ret (redirect "/home"))
      (λ _, send 500 "Error adding quote")).

(** [POST /quotes/:id/delete] *)
Definition post_delete (id : Z) (sess : Session) : H Response :=
  requireLogin sess (λ uid,
    try_catch
      (let* _ := Quote_destroy (mkWhere (Some id) (Some uid)) in
       ret (redirect "/home"))
      (λ _, send 500 "Error deleting quote")).

(** [GET /quotes/:id/edit] *)
Definition get_edit (id : Z) (sess : Session) : H Response :=
  requireLogin sess (λ uid,
    try_catch
      (let* quote := Quote_findOne (mkWhere (Some id) (Some uid)) in
       match quote with
       | None => ret (send 404 "Quote not found")
       | Some q => ret (render (edit_quote q (sess_username sess)))
       end)
      (λ _, send 500 "Error loading quote")).

(** [POST /quotes/:id/edit] *)
Definition post_edit (now : Z) (id : Z) (body : QuoteBody) (sess : Session)
  : H Response :=
  requireLogin sess (λ uid,
    try_catch
      (let* _ := Quote_update now
                   (mkValues (b_quoteText body)
                             (b_personName body)
                             (or_null (b_location body))
                             (or_null (b_date body))
                             None)
                   (mkWhere (Some id) (Some uid)) in
       ret (redirect "/home"))
      (λ _, send 500 "Error updating quote")).

(** [GET /stats] *)
Definition get_stats (sess : Session) : H Response :=
  requireLogin sess (λ uid,
    try_catch
      (let* quotes := Quote_findAll (mkWhere None (Some uid)) false in
       ret (render (stats (JSON_stringify quotes) (sess_username sess))))
      (λ _, send 500 "Error loading stats")).

(** [GET /game] *)
Definition get_game (sess : Session) : H Response :=
  requireLogin sess (λ uid,
    try_catch
      (let* quotes := Quote_findAll (mkWhere None (Some uid)) false in
       if bool_decide (length quotes < 2)%nat then
         ret (render (game (Some "You need at least 2 quotes to play the game!")
                           (Some []) None (sess_username sess)))
       else
         ret (render (game None None (Some (JSON_stringify quotes))
                           (sess_username sess))))
      (λ _, send 500 "Error loading game")).

End App.

(** ** The server: session middleware and routing *)

Inductive Route :=
  | GET_landing
  | POST_login (name : jsval)
  | GET_logout
  | GET_home
  | GET_add_quote
  | POST_add_quote (body : QuoteBody)
  | POST_delete (id : Z)
  | GET_edit (id : Z)
  | POST_edit (id : Z) (body : QuoteBody)
  | GET_stats
  | GET_game.

(** The routes registered with [requireLogin]. *)
Definition protected (r : Route) : bool :=
  match r with
  | GET_landing | POST_login _ | GET_logout => false
  | _ => true
  end.

(** A request: the session id of its cookie if it has one, the id the
    session middleware draws should it have to start a session, the clock,
    and the route with its parameters. *)
Record Request := mkRequest {
  cookie : option string;
  genid : string;
  now : Z;
  route : Route
}.

Record Server := mkServer {
  db : DB;
  sessions : gmap string Session
}.

Definition initial : Server := mkServer empty_db ∅.

(** The session middleware on the way in: the stored session of the
    cookie, or a new empty session under a new id. *)
Definition load_session (store : gmap string Session) (r : Request)
  : string * Session :=
  match cookie r with
  | Some sid =>
      match store !! sid with
      | Some sess => (sid, sess)
      | None => (genid r, new_session)
      end
  | None => (genid r, new_session)
  end.

Definition session_id (srv : Server) (r : Request) : string :=
  fst (load_session (sessions srv) r).

Definition session_of (srv : Server) (r : Request) : Session :=
  snd (load_session (sessions srv) r).

(** A handler that leaves the session as it is. *)
Definition keep (sess : Session) (h : H Response) : H (Response * option Session) :=
  λ d, match h d with (resp, d1, l) => ((resp, Some sess), d1, l) end.

(** The routing table; the second component is the session after the
    handler, [None] once [req.session.destroy()] has run. *)
Definition dispatch (r : Request) (sess : Session)
  : H (Response * option Session) :=
  match route r with
  | GET_landing => keep sess (App.get_landing sess)
  | POST_login name =>
      λ d, match App.post_login (now r) name sess d with
           | ((resp, sess'), d1, l) => ((resp, Some sess'), d1, l)
           end
  | GET_logout => respond (redirect "/", None)
  | GET_home => keep sess (App.get_home sess)
  | GET_add_quote => keep sess (App.get_add_quote sess)
  | POST_add_quote body => keep sess (App.post_add_quote (now r) body sess)
  | POST_delete id => keep sess (App.post_delete id sess)
  | GET_edit id => keep sess (App.get_edit id sess)
  | POST_edit id body => keep sess (App.post_edit (now r) id body sess)
  | GET_stats => keep sess (App.get_stats sess)
  | GET_game => keep sess (App.get_game sess)
  end.

Record Outcome := mkOutcome {
  response : Response;
  server : Server;
  queries : list Query
}.

(** One request: load the session, run the handler, and on the way out
    write the session back under its id ([saveUninitialized: true]), or
    remove it from the store when it was destroyed. *)
Definition handle (srv : Server) (r : Request) : Outcome :=
  let sid := session_id srv r in
  match dispatch r (session_of srv r) (db srv) with
  | ((resp, Some sess'), d, l) =>
      mkOutcome resp (mkServer d (<[sid := sess']> (sessions srv))) l
  | ((resp, None), d, l) =>
      mkOutcome resp (mkServer d (delete sid (sessions srv))) l
  end.

(** The server after a sequence of requests. *)
Definition run (srv : Server) (rs : list Request) : Server :=
  foldl (λ s r, server (handle s r)) srv rs.

(** ** The sessionless variant ([part_000]) *)

(** The same routes with no [User] model, no session and no owner key:
    every query selects by id alone or not at all. *)
Module Legacy.

(** [GET /] *)
Definition get_home : H Response :=
  try_catch
    (let* quotes := Quote_findAll (mkWhere None None) true in
     ret (render (home quotes None)))
    (λ _, send 500 "Error loading quotes").

(** [GET /add-quote] *)
Definition get_add_quote : H Response := respond (render (add_quote None)).

(** [POST /add-quote] *)
Definition post_add_quote (now : Z) (body : QuoteBody) : H Response :=
  try_catch
    (let* _ := Quote_create now
                 (mkValues (b_quoteText body)
                           (b_personName body)
                           (or_null (b_location body))
                           (or_null (b_date body))
                           None) in
     ret (redirect "/"))
    (λ _, send 500 "Error adding quote").

(** [POST /quotes/:id/delete] *)
Definition post_delete (id : Z) : H Response :=
  try_catch
    (let* _ := Quote_destroy (mkWhere (Some id) None) in
     ret (redirect "/"))
    (λ _, send 500 "Error deleting quote").

(** [GET /quotes/:id/edit], by [Quote.findByPk]. *)
Definition get_edit (id : Z) : H Response :=
  try_catch
    (let* quote := Quote_findOne (mkWhere (Some id) None) in
     match quote with
     | None => ret (send 404 "Quote not found")
     | Some q => ret (render (edit_quote q None))
     end)
    (λ _, send 500 "Error loading quote").

(** [POST /quotes/:id/edit] *)
Definition post_edit (now : Z) (id : Z) (body : QuoteBody) : H Response :=
  try_catch
    (let* _ := Quote_update now
                 (mkValues (b_quoteText body)
                           (b_personName body)
                           (or_null (b_location body))
                           (or_null (b_date body))
                           None)
                 (mkWhere (Some id) None) in
     ret (redirect "/"))
    (λ _, send 500 "Error updating quote").

(** The [Quote] model of [part_000] has no owner attribute: an instance
    serializes seven columns. *)
Definition Quote_toJSON (q : Quote) : Json :=
  JObj [("id", JNum (q_id q));
        ("quoteText", JStr (quoteText q));
        ("personName", JStr (personName q));
        ("location", json_text (location q));
        ("date", json_text (date q));
        ("createdAt", JNum (createdAt q));
        ("updatedAt", JNum (updatedAt q))].

Definition JSON_stringify (quotes : list Quote) : Json :=
  JArr (Quote_toJSON <$> quotes).

(** [GET /stats] *)
Definition get_stats : H Response :=
  try_catch
    (let* quotes := Quote_findAll (mkWhere None None) false in
     ret (render (stats (JSON_stringify quotes) None)))
    (λ _, send 500 "Error loading stats").

(** [GET /game] *)
Definition get_game : H Response :=
  try_catch
    (let* quotes := Quote_findAll (mkWhere None None) false in
     if bool_decide (length quotes < 2)%nat then
       ret (render (game (Some "You need at least 2 quotes to play the game!")
                         (Some []) None None))
     else
       ret (render (game None None (Some (JSON_stringify quotes)) None)))
    (λ _, send 500 "Error loading game").

End Legacy.

(** ** A worked session *)

Definition form (t p l dt : option string) : QuoteForm := mkForm t p l dt.

Definition alice_in : Request :=
  mkRequest None "s1" 1000 (POST_login (Some "alice")).

Definition alice (t : Z) (r : Route) : Request := mkRequest (Some "s1") "g" t r.

Definition bob_in : Request :=
  mkRequest None "s2" 1500 (POST_login (Some "bob")).

Definition bob (t : Z) (r : Route) : Request := mkRequest (Some "s2") "g" t r.

Definition demo : Server :=
  run initial
    [alice_in;
     alice 2000 (POST_add_quote (form (Some "Hi") (Some "Bob") None (Some "")));
     bob_in;
     bob 3000 (POST_add_quote (form (Some "Yo") (Some "Al") (Some "Rome") None));
     alice 4000 (POST_add_quote (form (Some "Later") (Some "Cy") None None))].

(** Alice logs out; Bob goes on. *)
Definition after_logout : Server :=
  run (server (handle demo (alice 5000 GET_logout)))
      [bob 6000 GET_home; bob_in].




(** Carol logs in for the first time, and later again from elsewhere. *)
Definition carol_in : Request :=
  mkRequest None "s3" 7000 (POST_login (Some "carol")).

Definition carol_again : Request :=
  mkRequest None "s4" 9000 (POST_login (Some "carol")).

(** A visitor logs in leaving the user name field empty. *)
Definition nameless_in : Request :=
  mkRequest None "s5" 7000 (POST_login (Some "")).

(** The walk through of one quote: logged in and added, then edited, then
    deleted. *)
Definition quote_added : Server :=
  run initial
    [alice_in;
     alice 2000 (POST_add_quote (form (Some "Hi") (Some "Bob") None None))].

Definition quote_edited : Server :=
  run quote_added
    [alice 3000 (POST_edit 1 (form (Some "Hi!") (Some "Bob") None None))].

Definition quote_deleted : Server :=
  run quote_edited [alice 4000 (POST_delete 1)].


(** ** Vocabulary of the statements *)

(** The session carries a user id the guard lets through. *)
Definition logged_in (sess : Session) (uid : Z) : Prop :=
  userId sess = Some uid ∧ uid ≠ 0.

Definition owned_by (uid : Z) (q : Quote) : Prop := UserId q = Some uid.

Global Instance owned_by_dec uid q : Decision (owned_by uid q).
Proof. unfold owned_by. apply _. Defined.

(** The row a request addresses: that id, that owner. *)
Definition targets (id uid : Z) (q : Quote) : Prop :=
  q_id q = id ∧ UserId q = Some uid.

Global Instance targets_dec id uid q : Decision (targets id uid q).
Proof. unfold targets. apply _. Defined.

(** A quote is written in a serialized payload. *)
Definition json_shows (j : Json) (q : Quote) : Prop :=
  match j with
  | JArr items => Quote_toJSON q ∈ items
  | _ => False
  end.

(** A quote is disclosed by a response: listed, put in the edit form, or
    serialized to the stats or quiz page. *)
Definition shows (resp : Response) (q : Quote) : Prop :=
  match resp with
  | render (home quotes _) => q ∈ quotes
  | render (edit_quote q' _) => q = q'
  | render (stats j _) => json_shows j q
  | render (game _ quotes j _) =>
      (∃ l, quotes = Some l ∧ q ∈ l) ∨ (∃ j', j = Some j' ∧ json_shows j' q)
  | _ => False
  end.

(** The two answers of the quiz page. *)
Definition not_enough (user : option string) : Response :=
  render (game (Some "You need at least 2 quotes to play the game!")
               (Some []) None user).

Definition game_data (quotes : list Quote) (user : option string) : Response :=
  render (game None None (Some (JSON_stringify quotes)) user).

(** What an edit makes of a row it reaches. *)
Definition edited (now : Z) (body : QuoteForm) (q : Quote) : Quote :=
  mkQuote (q_id q)
    (default (quoteText q) (f_quoteText body))
    (default (personName q) (f_personName body))
    (column (or_null (field (f_location body))))
    (column (or_null (field (f_date body))))
    (createdAt q) now (UserId q).

(** The attribute object both form handlers build from the body. *)
Definition posted (body : QuoteBody) (owner : option Z) : QuoteValues :=
  mkValues (b_quoteText body) (b_personName body)
           (or_null (b_location body)) (or_null (b_date body)) owner.


(** What one request can do to the database, given the user id of its
    session: nothing, add a user under a new name, add a quote of the
    session's user, rewrite or delete the rows of one id that the session's
    user owns. *)
Inductive db_step (o : option Z) (d : DB) : DB → Prop :=
  | step_none : db_step o d d
  | step_user name now :
      (∀ u, u ∈ Users d → username u ≠ name) →
      db_step o d
        (mkDB (Users d ++ [mkUser (UsersSeq d + 1) name now now]) (Quotes d)
              (UsersSeq d + 1) (QuotesSeq d))
  | step_create uid q :
      o = Some uid → uid ≠ 0 →
      UserId q = Some uid → q_id q = QuotesSeq d + 1 →
      user_exists d uid = true →
      db_step o d
        (mkDB (Users d) (Quotes d ++ [q]) (UsersSeq d) (QuotesSeq d + 1))
  | step_update uid id now (body : QuoteBody) :
      o = Some uid → uid ≠ 0 →
      db_step o d
        (mkDB (Users d)
              ((λ q, if decide (targets id uid q)
                     then apply_values now (posted body None) q else q)
                 <$> Quotes d)
              (UsersSeq d) (QuotesSeq d))
  | step_destroy uid id :
      o = Some uid → uid ≠ 0 →
      db_step o d
        (mkDB (Users d) (filter (λ q, ¬ targets id uid q) (Quotes d))
              (UsersSeq d) (QuotesSeq d)).

(** Primary keys come from the counters, which start at [0]; user names
    are unique; owners exist. *)
Record wf_db (d : DB) : Prop := mk_wf_db {
  wf_user_ids : ∀ u, u ∈ Users d → 0 < u_id u ≤ UsersSeq d;
  wf_user_seq : 0 ≤ UsersSeq d;
  wf_user_pk : NoDup (u_id <$> Users d);
  wf_user_names : ∀ u1 u2, u1 ∈ Users d → u2 ∈ Users d →
                           username u1 = username u2 → u1 = u2;
  wf_quote_ids : ∀ q, q ∈ Quotes d → 0 < q_id q ≤ QuotesSeq d;
  wf_quote_seq : 0 ≤ QuotesSeq d;
  wf_quote_pk : NoDup (q_id <$> Quotes d);
  wf_owners : ∀ q, q ∈ Quotes d → fk_ok d (UserId q) = true
}.

(** A stored session is empty or bound to a user of the table. *)
Definition wf_session (d : DB) (s : Session) : Prop :=
  ∀ uid, userId s = Some uid →
    ∃ u, u ∈ Users d ∧ u_id u = uid ∧ sess_username s = Some (username u).

Record wf_server (srv : Server) : Prop := mk_wf_server {
  wf_the_db : wf_db (db srv);
  wf_sessions : ∀ sid s, sessions srv !! sid = Some s → wf_session (db srv) s
}.

(** ** Vocabulary of the further statements *)

(** The routes registered with [app.get]. *)
Definition is_get (r : Route) : bool :=
  match r with
  | POST_login _ | POST_add_quote _ | POST_delete _ | POST_edit _ _ => false
  | _ => true
  end.

(** The calls that only read. *)
Definition is_find (q : Query) : bool :=
  match q with
  | User_findOne_q _ | Quote_findAll_q _ _ | Quote_findOne_q _ => true
  | _ => false
  end.

(** A row as [app.js] writes them: it has an owner, and an optional column
    holds a non-empty text or null. *)
Definition tidy (q : Quote) : Prop :=
  (∃ uid, UserId q = Some uid ∧ uid ≠ 0)
  ∧ location q ≠ Some "" ∧ date q ≠ Some "".

(** The rows a [where: { id }] object selects. *)
Definition has_id (id : Z) (q : Quote) : Prop := q_id q = id.

Global Instance has_id_dec id q : Decision (has_id id q).
Proof. unfold has_id. apply _. Defined.



(** The requests that lead to [demo]. *)
Definition demo_requests : list Request :=
  [alice_in;
   alice 2000 (POST_add_quote (form (Some "Hi") (Some "Bob") None (Some "")));
   bob_in;
   bob 3000 (POST_add_quote (form (Some "Yo") (Some "Al") (Some "Rome") None));
   alice 4000 (POST_add_quote (form (Some "Later") (Some "Cy") None None))].

(** Alice's fourth quote, and an edit of her first. *)
Definition fourth_post : Request :=
  alice 5000 (POST_add_quote (form (Some "New") (Some "Di") (Some "") None)).


(** ** The monad and the model calls, evaluated *)

Lemma matches_owner uid q :
  matches (mkWhere None (Some uid)) q ↔ owned_by uid q.
Proof.
  unfold matches, owned_by; simpl. by rewrite bool_decide_spec.
Qed.

Lemma matches_target id uid q :
  matches (mkWhere (Some id) (Some uid)) q ↔ targets id uid q.
Proof.
  unfold matches, targets; simpl.
  by rewrite andb_True, !bool_decide_spec.
Qed.

Lemma filter_owner uid (l : list Quote) :
  filter (λ q, matches (mkWhere None (Some uid)) q) l = filter (owned_by uid) l.
Proof. apply list_filter_iff, matches_owner. Qed.

Lemma filter_target id uid (l : list Quote) :
  filter (λ q, matches (mkWhere (Some id) (Some uid)) q) l
  = filter (targets id uid) l.
Proof. apply list_filter_iff, matches_target. Qed.

Lemma filter_none {A} (P : A → Prop) `{!∀ x, Decision (P x)} (l : list A) :
  (∀ x, x ∈ l → ¬ P x) → filter P l = [].
Proof.
  induction l as [|x l IH]; intros Hl; [done|].
  rewrite filter_cons_False by (apply Hl; left).
  apply IH. intros y Hy. apply Hl. by right.
Qed.

Lemma filter_all {A} (P : A → Prop) `{!∀ x, Decision (P x)} (l : list A) :
  (∀ x, x ∈ l → P x) → filter P l = l.
Proof.
  induction l as [|x l IH]; intros Hl; [done|].
  rewrite filter_cons_True by (apply Hl; left).
  f_equal. apply IH. intros y Hy. apply Hl. by right.
Qed.

Lemma db_eta d : mkDB (Users d) (Quotes d) (UsersSeq d) (QuotesSeq d) = d.
Proof. by destruct d. Qed.

Lemma requireLogin_in sess uid next :
  logged_in sess uid → App.requireLogin sess next = next uid.
Proof.
  intros [Hs Hz]. unfold App.requireLogin. rewrite Hs.
  by rewrite bool_decide_eq_false_2.
Qed.

Lemma requireLogin_out sess next :
  truthy (userId sess) = false →
  App.requireLogin sess next = respond (redirect "/").
Proof.
  unfold App.requireLogin, truthy. destruct (userId sess) as [uid|]; [|done].
  destruct (bool_decide (uid = 0)); [done|discriminate].
Qed.

Lemma logged_in_truthy sess uid : logged_in sess uid → truthy (userId sess) = true.
Proof.
  intros [-> Hz]. simpl. by rewrite bool_decide_eq_false_2.
Qed.

Lemma truthy_logged_in sess :
  truthy (userId sess) = true → ∃ uid, logged_in sess uid.
Proof.
  unfold truthy, logged_in. destruct (userId sess) as [uid|]; [|done].
  intros Hz. exists uid. split; [done|].
  intros ->. by rewrite bool_decide_eq_true_2 in Hz.
Qed.

(** The handlers of [app.js] behind the guard, evaluated. *)

Lemma get_home_run sess uid d :
  logged_in sess uid →
  App.get_home sess d
  = (render (home (merge_sort newer_first (filter (owned_by uid) (Quotes d)))
                  (sess_username sess)),
     d, [Quote_findAll_q (mkWhere None (Some uid)) true]).
Proof.
  intros Hin. unfold App.get_home. rewrite (requireLogin_in _ uid) by done.
  unfold try_catch, Quote_findAll, bind, issue, get_db, ret; simpl.
  by rewrite filter_owner.
Qed.

Lemma get_stats_run sess uid d :
  logged_in sess uid →
  App.get_stats sess d
  = (render (stats (JSON_stringify (filter (owned_by uid) (Quotes d)))
                   (sess_username sess)),
     d, [Quote_findAll_q (mkWhere None (Some uid)) false]).
Proof.
  intros Hin. unfold App.get_stats. rewrite (requireLogin_in _ uid) by done.
  unfold try_catch, Quote_findAll, bind, issue, get_db, ret; simpl.
  by rewrite filter_owner.
Qed.

Lemma get_game_run sess uid d :
  logged_in sess uid →
  App.get_game sess d
  = (if bool_decide (length (filter (owned_by uid) (Quotes d)) < 2)%nat
     then not_enough (sess_username sess)
     else game_data (filter (owned_by uid) (Quotes d)) (sess_username sess),
     d, [Quote_findAll_q (mkWhere None (Some uid)) false]).
Proof.
  intros Hin. unfold App.get_game. rewrite (requireLogin_in _ uid) by done.
  unfold try_catch, Quote_findAll, bind, issue, get_db, ret; simpl.
  rewrite filter_owner. by case_bool_decide.
Qed.

Lemma get_edit_run id sess uid d :
  logged_in sess uid →
  App.get_edit id sess d
  = (match head (filter (targets id uid) (Quotes d)) with
     | None => send 404 "Quote not found"
     | Some q => render (edit_quote q (sess_username sess))
     end,
     d, [Quote_findOne_q (mkWhere (Some id) (Some uid))]).
Proof.
  intros Hin. unfold App.get_edit. rewrite (requireLogin_in _ uid) by done.
  unfold try_catch, Quote_findOne, bind, issue, get_db, ret; simpl.
  rewrite filter_target. by destruct (head _).
Qed.

Lemma post_delete_run id sess uid d :
  logged_in sess uid →
  App.post_delete id sess d
  = (redirect "/home",
     mkDB (Users d) (filter (λ q, ¬ targets id uid q) (Quotes d))
          (UsersSeq d) (QuotesSeq d),
     [Quote_destroy_q (mkWhere (Some id) (Some uid))]).
Proof.
  intros Hin. unfold App.post_delete. rewrite (requireLogin_in _ uid) by done.
  unfold try_catch, Quote_destroy, bind, issue, get_db, put_db, ret; simpl.
  do 3 f_equal. apply list_filter_iff. intros q. by rewrite matches_target.
Qed.

Lemma field_not_null f : bool_decide (field f = Null) = false.
Proof. by destruct f. Qed.

Lemma or_null_defined v : or_null v ≠ Undefined.
Proof. destruct v; simpl; try done. by case_bool_decide. Qed.

Lemma apply_values_edited now (body : QuoteForm) q :
  apply_values now (posted body None) q = edited now body q.
Proof.
  unfold apply_values, edited, posted; simpl. f_equal.
  - by destruct (f_quoteText body).
  - by destruct (f_personName body).
  - pose proof (or_null_defined (field (f_location body))).
    by destruct (or_null _).
  - pose proof (or_null_defined (field (f_date body))).
    by destruct (or_null _).
Qed.

(** An edit with any body: refused by the validation when it gives a
    required attribute as null, and otherwise applied. *)
Lemma post_edit_run_body now id (body : QuoteBody) sess uid d :
  logged_in sess uid →
  App.post_edit now id body sess d
  = if bool_decide (b_quoteText body = Null)
       || bool_decide (b_personName body = Null)
    then (send 500 "Error updating quote", d,
          [Quote_update_q (posted body None) (mkWhere (Some id) (Some uid))])
    else (redirect "/home",
          mkDB (Users d)
               ((λ q, if decide (targets id uid q)
                      then apply_values now (posted body None) q else q)
                  <$> Quotes d)
               (UsersSeq d) (QuotesSeq d),
          [Quote_update_q (posted body None) (mkWhere (Some id) (Some uid))]).
Proof.
  intros Hin. unfold App.post_edit. rewrite (requireLogin_in _ uid) by done.
  unfold try_catch, Quote_update, bind, issue, get_db, put_db, ret, throw;
    simpl.
  destruct (bool_decide (b_quoteText body = Null)
            || bool_decide (b_personName body = Null)); simpl; [done|].
  unfold posted. do 3 f_equal.
  apply list_fmap_ext. intros _ q _.
  destruct (decide (targets id uid q)) as [Ht|Ht].
  - apply matches_target in Ht. by destruct (matches _ q).
  - rewrite <- matches_target in Ht. by destruct (matches _ q).
Qed.


(** A create with any body: stored when both required attributes are
    texts and the owner exists, refused otherwise. *)
Lemma post_add_quote_run_body now (body : QuoteBody) sess uid d :
  logged_in sess uid →
  App.post_add_quote now body sess d
  = match b_quoteText body, b_personName body with
    | Str t, Str p =>
        if user_exists d uid then
          (redirect "/home",
           mkDB (Users d)
                (Quotes d ++
                   [mkQuote (QuotesSeq d + 1) t p
                      (column (or_null (b_location body)))
                      (column (or_null (b_date body)))
                      now now (Some uid)])
                (UsersSeq d) (QuotesSeq d + 1),
           [Quote_create_q (posted body (Some uid))])
        else (send 500 "Error adding quote", d,
              [Quote_create_q (posted body (Some uid))])
    | _, _ => (send 500 "Error adding quote", d,
               [Quote_create_q (posted body (Some uid))])
    end.
Proof.
  intros Hin. unfold App.post_add_quote. rewrite (requireLogin_in _ uid) by done.
  unfold try_catch, Quote_create, bind, issue, get_db, put_db, ret, throw,
    posted; simpl.
  destruct (b_quoteText body), (b_personName body); simpl; try done.
  by destruct (user_exists d uid).
Qed.

Lemma post_add_quote_run now (body : QuoteForm) sess uid d :
  logged_in sess uid →
  App.post_add_quote now body sess d
  = let v := mkValues (field (f_quoteText body)) (field (f_personName body))
                      (or_null (field (f_location body)))
                      (or_null (field (f_date body))) (Some uid) in
    match f_quoteText body, f_personName body with
    | Some t, Some p =>
        if user_exists d uid then
          (redirect "/home",
           mkDB (Users d)
                (Quotes d ++
                   [mkQuote (QuotesSeq d + 1) t p
                      (column (or_null (field (f_location body))))
                      (column (or_null (field (f_date body))))
                      now now (Some uid)])
                (UsersSeq d) (QuotesSeq d + 1),
           [Quote_create_q v])
        else (send 500 "Error adding quote", d, [Quote_create_q v])
    | _, _ => (send 500 "Error adding quote", d, [Quote_create_q v])
    end.
Proof.
  intros Hin. rewrite (post_add_quote_run_body _ _ _ uid) by done.
  unfold posted. simpl.
  by destruct (f_quoteText body), (f_personName body).
Qed.

Lemma head_filter_None {A} (P : A → Prop) `{!∀ x, Decision (P x)} (l : list A) :
  head (filter P l) = None ↔ ∀ x, x ∈ l → ¬ P x.
Proof.
  rewrite head_None. split.
  - intros Hnil x Hx HP. by eapply filter_nil_not_elem_of.
  - apply filter_none.
Qed.

Lemma post_login_run now name sess d :
  App.post_login now (Some name) sess d
  = match head (filter (λ u, has_username name u) (Users d)) with
    | Some u =>
        ((redirect "/home", mkSession (Some (u_id u)) (Some (username u))),
         d, [User_findOne_q (Str name)])
    | None =>
        ((redirect "/home", mkSession (Some (UsersSeq d + 1)) (Some name)),
         mkDB (Users d ++ [mkUser (UsersSeq d + 1) name now now]) (Quotes d)
              (UsersSeq d + 1) (QuotesSeq d),
         [User_findOne_q (Str name); User_create_q (Str name)])
    end.
Proof.
  unfold App.post_login, try_catch, User_findOne, User_create, bind, issue,
    get_db, put_db, ret, throw; simpl.
  destruct (head _) as [u|] eqn:Hhead; simpl; [done|].
  rewrite bool_decide_eq_false_2; [done|].
  rewrite Exists_exists. intros (u & Hu & HP).
  rewrite head_filter_None in Hhead. by eapply Hhead.
Qed.

(** A login never answers with an error when the user name is given. *)
Lemma post_login_redirects now name sess d :
  (App.post_login now (Some name) sess d).1.1.1 = redirect "/home".
Proof. rewrite post_login_run. by destruct (head _). Qed.

(** One request through the session middleware. *)

Lemma handle_kept srv r h :
  dispatch r (session_of srv r) = keep (session_of srv r) h →
  handle srv r
  = mkOutcome (h (db srv)).1.1
      (mkServer (h (db srv)).1.2
         (<[session_id srv r := session_of srv r]> (sessions srv)))
      (h (db srv)).2.
Proof.
  intros Hd. unfold handle. rewrite Hd. unfold keep.
  by destruct (h (db srv)) as [[resp d] l].
Qed.

Lemma dispatch_protected r sess :
  protected (route r) = true →
  ∃ h, dispatch r sess = keep sess (App.requireLogin sess h).
Proof.
  unfold dispatch. destruct (route r); try discriminate; intros _;
    eexists; reflexivity.
Qed.

Lemma load_session_new store r c :
  cookie r = Some c → store !! c = None →
  load_session store r = (genid r, new_session).
Proof. intros Hc Hs. unfold load_session. by rewrite Hc, Hs. Qed.

Lemma load_session_found store r c s :
  cookie r = Some c → store !! c = Some s → load_session store r = (c, s).
Proof. intros Hc Hs. unfold load_session. by rewrite Hc, Hs. Qed.

(** ** The guard *)

Lemma guard_closed srv r :
  protected (route r) = true →
  truthy (userId (session_of srv r)) = false →
  response (handle srv r) = redirect "/"
  ∧ db (server (handle srv r)) = db srv
  ∧ queries (handle srv r) = [].
Proof.
  intros Hp Hf.
  destruct (dispatch_protected r (session_of srv r) Hp) as [h Hd].
  rewrite (handle_kept _ _ _ Hd), requireLogin_out by done. done.
Qed.

Lemma handle_sessions_absent srv r c :
  sessions srv !! c = None → genid r ≠ c →
  sessions (server (handle srv r)) !! c = None.
Proof.
  intros Hc Hg.
  assert (session_id srv r ≠ c) as Hsid.
  { unfold session_id, load_session.
    destruct (cookie r) as [c'|]; [|done].
    destruct (sessions srv !! c') eqn:Hc'; [|done].
    simpl. intros ->. congruence. }
  unfold handle. fold (session_id srv r).
  destruct (dispatch _ _ _) as [[[resp [s|]] d] l]; simpl.
  - by rewrite lookup_insert_ne.
  - by rewrite lookup_delete_ne.
Qed.

Lemma run_snoc srv rs r : run srv (rs ++ [r]) = server (handle (run srv rs) r).
Proof. unfold run. by rewrite foldl_app. Qed.

Lemma run_sessions_absent srv rs c :
  sessions srv !! c = None → Forall (λ r, genid r ≠ c) rs →
  sessions (run srv rs) !! c = None.
Proof.
  intros Hc. induction rs as [|r rs IH] using rev_ind; [done|].
  rewrite Forall_app, Forall_singleton. intros [Hrs Hr].
  rewrite run_snoc. apply handle_sessions_absent; auto.
Qed.

Lemma logout_forgets srv r c :
  route r = GET_logout → cookie r = Some c →
  sessions (server (handle srv r)) !! c = None.
Proof.
  intros Hr Hc. unfold handle, dispatch. rewrite Hr. simpl.
  apply lookup_delete_None.
  unfold session_id, load_session. rewrite Hc.
  destruct (sessions srv !! c) eqn:Hs; simpl; auto.
Qed.

(** C5. A request to a protected route that carries no valid session,
    be it a session without a user id or the cookie of a session an
    earlier logout destroyed (whatever requests came in between, as long
    as no new session drew that id again), is answered by a redirect to
    the landing page; the database is left as it was and no query is
    issued. *)
Theorem protected_route_needs_session srv r :
  protected (route r) = true →
  (truthy (userId (session_of srv r)) = false
   ∨ ∃ srv0 r0 rs c,
       srv = run (server (handle srv0 r0)) rs
       ∧ route r0 = GET_logout ∧ cookie r0 = Some c
       ∧ Forall (λ r', genid r' ≠ c) rs
       ∧ cookie r = Some c) →
  response (handle srv r) = redirect "/"
  ∧ db (server (handle srv r)) = db srv
  ∧ queries (handle srv r) = [].
Proof.
  intros Hp [Hf|(srv0 & r0 & rs & c & -> & Hr0 & Hc0 & Hrs & Hc)].
  - by apply guard_closed.
  - apply guard_closed; [done|].
    unfold session_of.
    rewrite (load_session_new _ _ c); [done|done|].
    apply run_sessions_absent; [|done]. by apply logout_forgets.
Qed.

Lemma protected_route_needs_session_witness :
  protected (route (alice 7000 GET_home)) = true
  ∧ route (alice 5000 GET_logout) = GET_logout
  ∧ cookie (alice 5000 GET_logout) = cookie (alice 7000 GET_home)
  ∧ truthy (userId (session_of demo (alice 7000 GET_home))) = true
  ∧ response (handle after_logout (alice 7000 GET_home)) = redirect "/"
  ∧ db (server (handle after_logout (alice 7000 GET_home))) = db after_logout
  ∧ queries (handle after_logout (alice 7000 GET_home)) = [].
Proof.
  split; [reflexivity|]. split; [reflexivity|]. split; [reflexivity|].
  split; [vm_compute; reflexivity|].
  apply protected_route_needs_session; [reflexivity|].
  right.
  exists demo, (alice 5000 GET_logout), [bob 6000 GET_home; bob_in], "s1".
  repeat split.
  repeat constructor; vm_compute; discriminate.
Defined.

(** ** Ids that reach no row of the session's user *)




Lemma dispatch_GET_edit r sess id :
  route r = GET_edit id → dispatch r sess = keep sess (App.get_edit id sess).
Proof. intros Hr. unfold dispatch. by rewrite Hr. Qed.

Lemma dispatch_POST_edit r sess id body :
  route r = POST_edit id body →
  dispatch r sess = keep sess (App.post_edit (now r) id body sess).
Proof. intros Hr. unfold dispatch. by rewrite Hr. Qed.

Lemma dispatch_POST_delete r sess id :
  route r = POST_delete id → dispatch r sess = keep sess (App.post_delete id sess).
Proof. intros Hr. unfold dispatch. by rewrite Hr. Qed.

Lemma dispatch_POST_add_quote r sess body :
  route r = POST_add_quote body →
  dispatch r sess = keep sess (App.post_add_quote (now r) body sess).
Proof. intros Hr. unfold dispatch. by rewrite Hr. Qed.

Lemma dispatch_GET_home r sess :
  route r = GET_home → dispatch r sess = keep sess (App.get_home sess).
Proof. intros Hr. unfold dispatch. by rewrite Hr. Qed.

Lemma dispatch_GET_stats r sess :
  route r = GET_stats → dispatch r sess = keep sess (App.get_stats sess).
Proof. intros Hr. unfold dispatch. by rewrite Hr. Qed.

Lemma dispatch_GET_game r sess :
  route r = GET_game → dispatch r sess = keep sess (App.get_game sess).
Proof. intros Hr. unfold dispatch. by rewrite Hr. Qed.




(** ** The quiz page *)

Lemma not_enough_is_not_game_data quotes user :
  game_data quotes user ≠ not_enough user.
Proof. discriminate. Qed.

(** C7. For a logged-in user the quiz page answers with the "not enough"
    state and no game data exactly when the user owns fewer than two
    quotes. When there are two or more it hands over one document: the
    array that has, for each quote the user owns and in table order, the
    object of its eight columns. *)
Theorem quiz_needs_two_quotes srv r uid :
  route r = GET_game →
  logged_in (session_of srv r) uid →
  ((length (filter (owned_by uid) (Quotes (db srv))) < 2)%nat
     ↔ response (handle srv r) = not_enough (sess_username (session_of srv r)))
  ∧ ((2 ≤ length (filter (owned_by uid) (Quotes (db srv))))%nat →
       response (handle srv r)
       = render
           (game None None
              (Some (JArr ((λ q, JObj [("id", JNum (q_id q));
                                              ("quoteText", JStr (quoteText q));
                                              ("personName", JStr (personName q));
                                              ("location",
                                               match location q with
                                               | Some s => JStr s
                                               | None => JNull
                                               end);
                                              ("date",
                                               match date q with
                                               | Some s => JStr s
                                               | None => JNull
                                               end);
                                              ("createdAt", JNum (createdAt q));
                                              ("updatedAt", JNum (updatedAt q));
                                              ("UserId",
                                               match UserId q with
                                               | Some n => JNum n
                                               | None => JNull
                                               end)])
                             <$> filter (owned_by uid) (Quotes (db srv)))))
              (sess_username (session_of srv r)))).
Proof.
  intros Hr Hin.
  rewrite (handle_kept _ _ _ (dispatch_GET_game _ _ Hr)).
  rewrite (get_game_run _ uid) by done. simpl.
  case_bool_decide as Hlen; split.
  - done.
  - lia.
  - split; [lia|]. intros Heq. by apply not_enough_is_not_game_data in Heq.
  - done.
Qed.

Lemma quiz_needs_two_quotes_witness :
  logged_in (session_of demo (bob 5000 GET_game)) 2
  ∧ response (handle demo (bob 5000 GET_game)) = not_enough (Some "bob")
  ∧ logged_in (session_of demo (alice 5000 GET_game)) 1
  ∧ response (handle demo (alice 5000 GET_game))
    = render
        (game None None
           (Some (JArr [JObj [("id", JNum 1); ("quoteText", JStr "Hi");
                              ("personName", JStr "Bob"); ("location", JNull);
                              ("date", JNull); ("createdAt", JNum 2000);
                              ("updatedAt", JNum 2000); ("UserId", JNum 1)];
                        JObj [("id", JNum 3); ("quoteText", JStr "Later");
                              ("personName", JStr "Cy"); ("location", JNull);
                              ("date", JNull); ("createdAt", JNum 4000);
                              ("updatedAt", JNum 4000); ("UserId", JNum 1)]]))
           (Some "alice")).
Proof.
  assert (logged_in (session_of demo (bob 5000 GET_game)) 2) as Hbob
    by (split; [vm_compute; reflexivity|lia]).
  assert (logged_in (session_of demo (alice 5000 GET_game)) 1) as Halice
    by (split; [vm_compute; reflexivity|lia]).
  split; [exact Hbob|]. split; [|split; [exact Halice|]].
  - apply (quiz_needs_two_quotes demo (bob 5000 GET_game) 2 eq_refl Hbob).
    vm_compute. lia.
  - destruct (quiz_needs_two_quotes demo (alice 5000 GET_game) 1 eq_refl Halice)
      as [_ Hdata].
    rewrite Hdata by (vm_compute; lia). vm_compute. reflexivity.
Defined.

(** ** The listing *)

Global Instance newer_first_trans : Transitive newer_first.
Proof. unfold newer_first. intros q1 q2 q3. lia. Qed.

Global Instance newer_first_total : Total newer_first.
Proof. unfold newer_first. intros q1 q2. lia. Qed.

Lemma StronglySorted_lookup_lt {A} (R : relation A) (l : list A) i j x y :
  StronglySorted R l → l !! i = Some x → l !! j = Some y → (i < j)%nat → R x y.
Proof.
  intros Hs. revert i j. induction Hs as [|a l Hs IH Hall]; intros i j Hi Hj Hlt.
  - by rewrite lookup_nil in Hi.
  - destruct j as [|j]; [lia|]. simpl in Hj.
    destruct i as [|i]; simpl in Hi.
    + injection Hi as ->. rewrite Forall_forall in Hall.
      eapply Hall, list_elem_of_lookup_2, Hj.
    + eapply (IH i j); [done|done|lia].
Qed.

(** C6. For a logged-in user the home page lists exactly that user's
    quotes, all of them, newest first: a quote created later than another
    stands before it. *)
Theorem home_lists_all_newest_first srv r uid :
  route r = GET_home →
  logged_in (session_of srv r) uid →
  ∃ listing,
    response (handle srv r)
    = render (home listing (sess_username (session_of srv r)))
    ∧ listing ≡ₚ filter (owned_by uid) (Quotes (db srv))
    ∧ ∀ q1 q2 i j,
        listing !! i = Some q2 → listing !! j = Some q1 →
        createdAt q1 < createdAt q2 → (i < j)%nat.
Proof.
  intros Hr Hin.
  rewrite (handle_kept _ _ _ (dispatch_GET_home _ _ Hr)).
  rewrite (get_home_run _ uid) by done. simpl.
  eexists. split; [done|]. split; [apply merge_sort_Permutation|].
  intros q1 q2 i j Hi Hj Hlt.
  pose proof (StronglySorted_merge_sort newer_first
                (filter (owned_by uid) (Quotes (db srv)))) as Hs.
  destruct (Nat.lt_trichotomy i j) as [?|[->|Hji]]; [done| |].
  - rewrite Hi in Hj. injection Hj as ->. lia.
  - pose proof (StronglySorted_lookup_lt _ _ _ _ _ _ Hs Hj Hi Hji) as HR.
    unfold newer_first in HR. lia.
Qed.

Lemma home_lists_all_newest_first_witness :
  logged_in (session_of demo (alice 5000 GET_home)) 1
  ∧ ∃ listing,
      response (handle demo (alice 5000 GET_home))
      = render (home listing (Some "alice"))
      ∧ listing ≡ₚ filter (owned_by 1) (Quotes (db demo))
      ∧ ∀ q1 q2 i j,
          listing !! i = Some q2 → listing !! j = Some q1 →
          createdAt q1 < createdAt q2 → (i < j)%nat.
Proof.
  assert (logged_in (session_of demo (alice 5000 GET_home)) 1) as Hin
    by (split; [vm_compute; reflexivity|lia]).
  split; [exact Hin|].
  exact (home_lists_all_newest_first demo (alice 5000 GET_home) 1 eq_refl Hin).
Defined.

(** ** Creating a quote *)



Lemma handle_guarded srv r :
  protected (route r) = true →
  response (handle srv r) ≠ redirect "/" →
  ∃ uid, logged_in (session_of srv r) uid.
Proof.
  intros Hp Hresp. apply truthy_logged_in.
  destruct (truthy (userId (session_of srv r))) eqn:Ht; [done|].
  by destruct (guard_closed srv r Hp Ht) as [? _].
Qed.






(** With both required fields present, whatever their text, a logged-in
    session whose user is in the table gets its row stored. *)
Lemma create_with_both_fields_succeeds srv r (body : QuoteForm) uid t p :
  route r = POST_add_quote body →
  logged_in (session_of srv r) uid →
  user_exists (db srv) uid = true →
  f_quoteText body = Some t → f_personName body = Some p →
  response (handle srv r) = redirect "/home".
Proof.
  intros Hr Hin Hu Ht Hp.
  rewrite (handle_kept _ _ _ (dispatch_POST_add_quote _ _ _ Hr)).
  rewrite (post_add_quote_run _ _ _ uid) by done. simpl.
  by rewrite Ht, Hp, Hu.
Qed.

(** ** Editing a quote *)





(** ** Logging in *)

Lemma dispatch_POST_login r sess name d :
  route r = POST_login name →
  dispatch r sess d
  = match App.post_login (now r) name sess d with
    | ((resp, sess'), d1, l) => ((resp, Some sess'), d1, l)
    end.
Proof. intros Hr. unfold dispatch. by rewrite Hr. Qed.

Lemma handle_login srv r name :
  route r = POST_login (Some name) →
  handle srv r
  = match head (filter (λ u, has_username name u) (Users (db srv))) with
    | Some u =>
        mkOutcome (redirect "/home")
          (mkServer (db srv)
             (<[session_id srv r :=
                  mkSession (Some (u_id u)) (Some (username u))]>
                (sessions srv)))
          [User_findOne_q (Str name)]
    | None =>
        mkOutcome (redirect "/home")
          (mkServer
             (mkDB (Users (db srv)
                      ++ [mkUser (UsersSeq (db srv) + 1) name (now r) (now r)])
                   (Quotes (db srv)) (UsersSeq (db srv) + 1)
                   (QuotesSeq (db srv)))
             (<[session_id srv r :=
                  mkSession (Some (UsersSeq (db srv) + 1)) (Some name)]>
                (sessions srv)))
          [User_findOne_q (Str name); User_create_q (Str name)]
    end.
Proof.
  intros Hr. unfold handle.
  rewrite (dispatch_POST_login _ _ _ _ Hr), post_login_run.
  by destruct (head _).
Qed.

(** A login whose [username] is not a text: the find is refused
    ([undefined]), or finds nothing and the create is refused (null). *)
Lemma handle_login_refused srv r name :
  route r = POST_login name → (∀ s, name ≠ Str s) →
  handle srv r
  = mkOutcome (send 500 "Error logging in")
      (mkServer (db srv)
         (<[session_id srv r := session_of srv r]> (sessions srv)))
      (match name with
       | Undefined => [User_findOne_q Undefined]
       | _ => [User_findOne_q name; User_create_q name]
       end).
Proof.
  intros Hr Hname. unfold handle. rewrite (dispatch_POST_login _ _ _ _ Hr).
  destruct name as [| |s]; [done|done|by destruct (Hname s)].
Qed.

Lemma has_username_spec name u : has_username name u ↔ username u = name.
Proof. unfold has_username. by rewrite bool_decide_spec. Qed.

(** Every request is one of the steps above. *)
Lemma handle_db_step srv r :
  db_step (userId (session_of srv r)) (db srv) (db (server (handle srv r))).
Proof.
  destruct (route r) as [|[| |name]| | | |body|id|id|id body| |] eqn:Hr.
  all: try (destruct (truthy (userId (session_of srv r))) eqn:Ht;
            [apply truthy_logged_in in Ht as [uid Hin]
            |destruct (guard_closed srv r) as (_ & -> & _);
               [by rewrite Hr|done|constructor]]).
  - unfold handle, dispatch; rewrite Hr; unfold keep, App.get_landing.
    destruct (truthy _); constructor.
  - rewrite (handle_login_refused _ _ _ Hr) by done. constructor.
  - rewrite (handle_login_refused _ _ _ Hr) by done. constructor.
  - rewrite (handle_login _ _ _ Hr).
    destruct (head _) eqn:Hhead; simpl; [constructor|].
    apply step_user. intros u Hu. rewrite <- has_username_spec.
    by apply (proj1 (head_filter_None _ _) Hhead).
  - unfold handle, dispatch; rewrite Hr; simpl. constructor.
  - rewrite (handle_kept _ _ _ (dispatch_GET_home _ _ Hr)).
    rewrite (get_home_run _ uid) by done. constructor.
  - unfold handle, dispatch; rewrite Hr; unfold keep, App.get_add_quote.
    rewrite (requireLogin_in _ uid) by done. constructor.
  - rewrite (handle_kept _ _ _ (dispatch_POST_add_quote _ _ _ Hr)).
    rewrite (post_add_quote_run_body _ _ _ uid) by done. simpl.
    destruct (b_quoteText body), (b_personName body); try constructor.
    destruct (user_exists _ _) eqn:Hu; [|constructor].
    simpl. by eapply (step_create _ _ uid); [apply Hin|apply Hin|..].
  - rewrite (handle_kept _ _ _ (dispatch_POST_delete _ _ _ Hr)).
    rewrite (post_delete_run _ _ uid) by done.
    by apply (step_destroy _ _ uid); apply Hin.
  - rewrite (handle_kept _ _ _ (dispatch_GET_edit _ _ _ Hr)).
    rewrite (get_edit_run _ _ uid) by done. constructor.
  - rewrite (handle_kept _ _ _ (dispatch_POST_edit _ _ _ _ Hr)).
    rewrite (post_edit_run_body _ _ _ _ uid) by done.
    destruct (_ || _); [constructor|].
    by apply (step_update _ _ uid); apply Hin.
  - rewrite (handle_kept _ _ _ (dispatch_GET_stats _ _ Hr)).
    rewrite (get_stats_run _ uid) by done. constructor.
  - rewrite (handle_kept _ _ _ (dispatch_GET_game _ _ Hr)).
    rewrite (get_game_run _ uid) by done. simpl. constructor.
Qed.

(** The users table only ever grows at its end. *)
Lemma db_step_users_prefix o d d' : db_step o d d' → Users d `prefix_of` Users d'.
Proof. destruct 1; simpl; try done. by apply prefix_app_r. Qed.

Lemma handle_users_prefix srv r :
  Users (db srv) `prefix_of` Users (db (server (handle srv r))).
Proof. eapply db_step_users_prefix, handle_db_step. Qed.

Lemma run_users_prefix srv rs :
  Users (db srv) `prefix_of` Users (db (run srv rs)).
Proof.
  induction rs as [|r rs IH] using rev_ind; [done|].
  rewrite run_snoc. etrans; [exact IH|]. apply handle_users_prefix.
Qed.

Lemma head_filter_prefix {A} (P : A → Prop) `{!∀ x, Decision (P x)}
    (l1 l2 : list A) x :
  l1 `prefix_of` l2 → head (filter P l1) = Some x → head (filter P l2) = Some x.
Proof.
  intros [k ->] Hx. rewrite filter_app.
  apply head_Some in Hx as [l' ->]. done.
Qed.

(** A login with a name the table has binds the session to that row and
    writes nothing. *)
Lemma login_known srv r name u :
  route r = POST_login (Some name) →
  head (filter (λ u, has_username name u) (Users (db srv))) = Some u →
  response (handle srv r) = redirect "/home"
  ∧ db (server (handle srv r)) = db srv
  ∧ sessions (server (handle srv r)) !! session_id srv r
    = Some (mkSession (Some (u_id u)) (Some (username u))).
Proof.
  intros Hr Hu. rewrite (handle_login _ _ _ Hr), Hu. simpl.
  by rewrite lookup_insert_eq.
Qed.

(** C4. A login with a user name the table does not have adds exactly one
    user with that name and binds the request's session to its id and
    name. A later login with the same name, whatever requests came in
    between, adds no user and binds its session to that same user. *)
Theorem login_creates_user_once srv r1 rs r2 name :
  route r1 = POST_login (Some name) →
  route r2 = POST_login (Some name) →
  (∀ u, u ∈ Users (db srv) → username u ≠ name) →
  ∃ u,
    username u = name
    ∧ response (handle srv r1) = redirect "/home"
    ∧ Users (db (server (handle srv r1))) = Users (db srv) ++ [u]
    ∧ sessions (server (handle srv r1)) !! session_id srv r1
      = Some (mkSession (Some (u_id u)) (Some name))
    ∧ response (handle (run (server (handle srv r1)) rs) r2) = redirect "/home"
    ∧ db (server (handle (run (server (handle srv r1)) rs) r2))
      = db (run (server (handle srv r1)) rs)
    ∧ sessions (server (handle (run (server (handle srv r1)) rs) r2))
        !! session_id (run (server (handle srv r1)) rs) r2
      = Some (mkSession (Some (u_id u)) (Some name)).
Proof.
  intros Hr1 Hr2 Hfresh.
  assert (head (filter (λ u, has_username name u) (Users (db srv))) = None)
    as Hnone.
  { apply head_filter_None. intros u Hu. rewrite has_username_spec.
    by apply Hfresh. }
  exists (mkUser (UsersSeq (db srv) + 1) name (now r1) (now r1)).
  split; [done|].
  assert (head (filter (λ u, has_username name u)
                  (Users (db (server (handle srv r1)))))
          = Some (mkUser (UsersSeq (db srv) + 1) name (now r1) (now r1)))
    as Hfirst.
  { rewrite (handle_login _ _ _ Hr1), Hnone. simpl.
    rewrite filter_app.
    rewrite (filter_none _ _ (proj1 (head_filter_None _ _) Hnone)). simpl.
    rewrite filter_cons_True; [done|]. by apply has_username_spec. }
  pose proof (head_filter_prefix _ _ _ _
                (run_users_prefix (server (handle srv r1)) rs) Hfirst) as Hlater.
  destruct (login_known _ _ _ _ Hr2 Hlater) as (Hresp2 & Hdb2 & Hsess2).
  rewrite Hresp2, Hdb2, Hsess2.
  rewrite (handle_login _ _ _ Hr1), Hnone. simpl.
  by rewrite lookup_insert_eq.
Qed.

Lemma login_creates_user_once_witness :
  (∀ u, u ∈ Users (db demo) → username u ≠ "carol")
  ∧ ∃ u,
      username u = "carol"
      ∧ response (handle demo carol_in) = redirect "/home"
      ∧ Users (db (server (handle demo carol_in))) = Users (db demo) ++ [u]
      ∧ sessions (server (handle demo carol_in)) !! session_id demo carol_in
        = Some (mkSession (Some (u_id u)) (Some "carol"))
      ∧ response (handle (run (server (handle demo carol_in)) [bob 8000 GET_home])
                    carol_again)
        = redirect "/home"
      ∧ db (server (handle (run (server (handle demo carol_in)) [bob 8000 GET_home])
                      carol_again))
        = db (run (server (handle demo carol_in)) [bob 8000 GET_home])
      ∧ sessions (server (handle (run (server (handle demo carol_in))
                                    [bob 8000 GET_home]) carol_again))
          !! session_id (run (server (handle demo carol_in)) [bob 8000 GET_home])
               carol_again
        = Some (mkSession (Some (u_id u)) (Some "carol")).
Proof.
  assert (∀ u, u ∈ Users (db demo) → username u ≠ "carol") as Hfresh.
  { intros u Hu.
    let l := eval vm_compute in (Users (db demo)) in change (u ∈ l) in Hu.
    rewrite !elem_of_cons, elem_of_nil in Hu.
    destruct Hu as [->|[->|[]]]; discriminate. }
  split; [exact Hfresh|].
  exact (login_creates_user_once demo carol_in [bob 8000 GET_home] carol_again
           "carol" eq_refl eq_refl Hfresh).
Defined.

(** ** What every reachable server satisfies *)

Lemma user_exists_spec d uid :
  user_exists d uid = true ↔ ∃ u, u ∈ Users d ∧ u_id u = uid.
Proof.
  unfold user_exists. rewrite bool_decide_eq_true, Exists_exists. done.
Qed.

Lemma fk_ok_prefix d d' o :
  Users d `prefix_of` Users d' → fk_ok d o = true → fk_ok d' o = true.
Proof.
  intros [k Hk]. destruct o as [uid|]; simpl; [|done].
  rewrite !user_exists_spec. intros (u & Hu & Hid).
  exists u. split; [|done]. rewrite Hk. apply elem_of_app. by left.
Qed.

Lemma wf_session_prefix d d' s :
  Users d `prefix_of` Users d' → wf_session d s → wf_session d' s.
Proof.
  intros [k Hk] Hs uid Huid. destruct (Hs uid Huid) as (u & Hu & Hrest).
  exists u. split; [|done]. rewrite Hk. apply elem_of_app. by left.
Qed.

Lemma wf_initial : wf_server initial.
Proof.
  split.
  - split; simpl; try lia; try apply NoDup_nil_2;
      intros; exfalso; eapply elem_of_nil; eassumption.
  - intros sid s. unfold initial; simpl. by rewrite lookup_empty.
Qed.

Lemma NoDup_snoc_fresh {A} (f : A → Z) (l : list A) (x : A) (bound : Z) :
  (∀ y, y ∈ l → f y ≤ bound) → bound < f x →
  NoDup (f <$> l) → NoDup (f <$> (l ++ [x])).
Proof.
  intros Hle Hlt Hnd. rewrite fmap_app. apply NoDup_app.
  split; [done|]. split; [|apply NoDup_singleton].
  intros i (y & -> & Hy)%list_elem_of_fmap Hi%list_elem_of_singleton.
  specialize (Hle y Hy). simpl in Hi. lia.
Qed.

Lemma db_step_wf o d d' : wf_db d → db_step o d d' → wf_db d'.
Proof.
  intros [Hids Hseq Hpk Hnames Hqids Hqseq Hqpk Hown] Hstep.
  pose proof (db_step_users_prefix _ _ _ Hstep) as Hpre.
  destruct Hstep as [|name now Hfresh|uid q Ho Hz Hq Hid Hex
                    |uid id now body Ho Hz|uid id Ho Hz];
    split; simpl in *; try done; try lia.
  - intros u [Hu|Hu%list_elem_of_singleton]%elem_of_app.
    + specialize (Hids u Hu). lia.
    + subst u. simpl. lia.
  - apply (NoDup_snoc_fresh _ _ _ (UsersSeq d)); [|simpl; lia|done].
    intros u Hu. specialize (Hids u Hu). lia.
  - intros u1 u2 [H1|H1%list_elem_of_singleton]%elem_of_app
      [H2|H2%list_elem_of_singleton]%elem_of_app Heq.
    + by apply Hnames.
    + subst u2. simpl in Heq. by apply Hfresh in H1.
    + subst u1. simpl in Heq. symmetry in Heq. by apply Hfresh in H2.
    + by subst.
  - intros q Hq. eapply fk_ok_prefix; [exact Hpre|]. by apply Hown.
  - intros q' [Hq'|Hq'%list_elem_of_singleton]%elem_of_app.
    + specialize (Hqids q' Hq'). lia.
    + subst q'. lia.
  - apply (NoDup_snoc_fresh _ _ _ (QuotesSeq d)); [|lia|done].
    intros q' Hq'. specialize (Hqids q' Hq'). lia.
  - intros q' [Hq'|Hq'%list_elem_of_singleton]%elem_of_app.
    + by apply Hown.
    + subst q'. rewrite Hq. exact Hex.
  - intros q' (q & -> & Hq)%list_elem_of_fmap.
    specialize (Hqids q Hq). by destruct (decide _).
  - rewrite <- list_fmap_compose.
    erewrite list_fmap_ext; [exact Hqpk|].
    intros i q _. simpl. by destruct (decide _).
  - intros q' (q & -> & Hq)%list_elem_of_fmap.
    specialize (Hown q Hq). by destruct (decide _).
  - intros q [_ Hq]%list_elem_of_filter. by apply Hqids.
  - apply (sublist_NoDup _ (q_id <$> Quotes d)); [exact Hqpk|].
    apply fmap_sublist, sublist_filter.
  - intros q [_ Hq]%list_elem_of_filter. by apply Hown.
Qed.

Lemma dispatch_kept r sess :
  (∀ name, route r ≠ POST_login name) → route r ≠ GET_logout →
  ∃ h, dispatch r sess = keep sess h.
Proof.
  intros Hlogin Hlogout. unfold dispatch.
  destruct (route r) as [|name| | | | | | | | |]; try (eexists; reflexivity).
  - by destruct (Hlogin name).
  - done.
Qed.

(** A session in the store after a request was there before, or is the
    request's own session as loaded, or was bound by a login to a user of
    the table. *)
Lemma handle_sessions_step srv r sid s :
  sessions (server (handle srv r)) !! sid = Some s →
  sessions srv !! sid = Some s
  ∨ s = session_of srv r
  ∨ ∃ u, u ∈ Users (db (server (handle srv r)))
         ∧ s = mkSession (Some (u_id u)) (Some (username u)).
Proof.
  destruct (route r) as [|[| |name]| | | | | | | | |] eqn:Hr.
  all: try (destruct (dispatch_kept r (session_of srv r)) as [h Hd];
            [intros ?; by rewrite Hr|by rewrite Hr|];
            rewrite (handle_kept _ _ _ Hd); simpl;
            intros [[_ <-]|[_ ?]]%lookup_insert_Some; by auto).
  - rewrite (handle_login_refused _ _ _ Hr) by done. simpl.
    intros [[_ <-]|[_ ?]]%lookup_insert_Some; by auto.
  - rewrite (handle_login_refused _ _ _ Hr) by done. simpl.
    intros [[_ <-]|[_ ?]]%lookup_insert_Some; by auto.
  - rewrite (handle_login _ _ _ Hr).
    destruct (head _) as [u|] eqn:Hhead; simpl.
    + intros [[_ <-]|[_ ?]]%lookup_insert_Some; [|by auto].
      right; right. exists u. split; [|done].
      apply head_Some_elem_of in Hhead.
      by apply list_elem_of_filter in Hhead as [_ ?].
    + intros [[_ <-]|[_ ?]]%lookup_insert_Some; [|by auto].
      right; right.
      exists (mkUser (UsersSeq (db srv) + 1) name (now r) (now r)).
      split; [|reflexivity].
      apply elem_of_app. right. by apply list_elem_of_singleton.
  - unfold handle, dispatch; rewrite Hr; simpl.
    intros [_ ?]%lookup_delete_Some. by auto.
Qed.

Lemma wf_session_of srv r : wf_server srv → wf_session (db srv) (session_of srv r).
Proof.
  intros [_ Hs]. unfold session_of, load_session.
  destruct (cookie r) as [c|]; [|by intros ?].
  destruct (sessions srv !! c) as [s|] eqn:Hc; [|by intros ?].
  by eapply Hs.
Qed.

Lemma handle_wf srv r : wf_server srv → wf_server (server (handle srv r)).
Proof.
  intros Hwf. pose proof (handle_users_prefix srv r) as Hpre.
  split.
  - eapply db_step_wf; [apply Hwf|apply handle_db_step].
  - intros sid s [Hold|[->|(u & Hu & ->)]]%handle_sessions_step.
    + eapply wf_session_prefix; [exact Hpre|]. by eapply (wf_sessions _ Hwf).
    + eapply wf_session_prefix; [exact Hpre|]. by apply wf_session_of.
    + intros uid [= <-]. by exists u.
Qed.

Lemma run_wf srv rs : wf_server srv → wf_server (run srv rs).
Proof.
  intros Hwf. induction rs as [|r rs IH] using rev_ind; [done|].
  rewrite run_snoc. by apply handle_wf.
Qed.

Lemma demo_wf : wf_server demo.
Proof. apply run_wf, wf_initial. Qed.



(** ** The empty user name *)

Lemma logged_in_passes srv r uid :
  protected (route r) = true →
  logged_in (session_of srv r) uid →
  response (handle srv r) ≠ redirect "/".
Proof.
  intros Hp Hin.
  destruct (route r) as [|name| | | |body|id|id|id body| |] eqn:Hr;
    try discriminate.
  - rewrite (handle_kept _ _ _ (dispatch_GET_home _ _ Hr)).
    by rewrite (get_home_run _ uid).
  - unfold handle, dispatch; rewrite Hr; unfold keep, App.get_add_quote.
    by rewrite (requireLogin_in _ uid).
  - rewrite (handle_kept _ _ _ (dispatch_POST_add_quote _ _ _ Hr)).
    rewrite (post_add_quote_run_body _ _ _ uid) by done. simpl.
    destruct (b_quoteText body), (b_personName body); try done.
    by destruct (user_exists _ _).
  - rewrite (handle_kept _ _ _ (dispatch_POST_delete _ _ _ Hr)).
    by rewrite (post_delete_run _ _ uid).
  - rewrite (handle_kept _ _ _ (dispatch_GET_edit _ _ _ Hr)).
    rewrite (get_edit_run _ _ uid) by done. simpl. by destruct (head _).
  - rewrite (handle_kept _ _ _ (dispatch_POST_edit _ _ _ _ Hr)).
    rewrite (post_edit_run_body _ _ _ _ uid) by done. by destruct (_ || _).
  - rewrite (handle_kept _ _ _ (dispatch_GET_stats _ _ Hr)).
    by rewrite (get_stats_run _ uid).
  - rewrite (handle_kept _ _ _ (dispatch_GET_game _ _ Hr)).
    rewrite (get_game_run _ uid) by done. simpl. by case_bool_decide.
Qed.

(** C9. A login whose user name is the empty string does not fail: it
    redirects to the listing, having found the user named by the empty
    string or, there being none, created it; the session is bound to that
    user, and every later request with that session's cookie passes the
    guard of the protected routes. *)
Theorem empty_username_logs_in srv r :
  route r = POST_login (Some "") →
  wf_server srv →
  ∃ u,
    username u = ""
    ∧ response (handle srv r) = redirect "/home"
    ∧ ((u ∈ Users (db srv) ∧ db (server (handle srv r)) = db srv)
       ∨ ((∀ v, v ∈ Users (db srv) → username v ≠ "")
          ∧ Users (db (server (handle srv r))) = Users (db srv) ++ [u]))
    ∧ sessions (server (handle srv r)) !! session_id srv r
      = Some (mkSession (Some (u_id u)) (Some ""))
    ∧ ∀ r', cookie r' = Some (session_id srv r) →
        logged_in (session_of (server (handle srv r)) r') (u_id u)
        ∧ (∀ next, App.requireLogin (session_of (server (handle srv r)) r') next
                   = next (u_id u))
        ∧ (protected (route r') = true →
           response (handle (server (handle srv r)) r') ≠ redirect "/").
Proof.
  intros Hr Hwf.
  assert (∃ u, username u = ""
            ∧ response (handle srv r) = redirect "/home"
            ∧ ((u ∈ Users (db srv) ∧ db (server (handle srv r)) = db srv)
               ∨ ((∀ v, v ∈ Users (db srv) → username v ≠ "")
                  ∧ Users (db (server (handle srv r))) = Users (db srv) ++ [u]))
            ∧ sessions (server (handle srv r)) !! session_id srv r
              = Some (mkSession (Some (u_id u)) (Some ""))
            ∧ u_id u ≠ 0) as (u & Hname & Hresp & Hfound & Hsess & Hid).
  { rewrite (handle_login _ _ _ Hr).
    destruct (head _) as [u|] eqn:Hhead; simpl.
    - apply head_Some_elem_of, list_elem_of_filter in Hhead as [Hu Hin].
      apply has_username_spec in Hu.
      exists u. rewrite Hu.
      split; [done|]. split; [done|]. split; [by left|].
      split; [apply lookup_insert_eq|].
      pose proof (wf_user_ids _ (wf_the_db _ Hwf) u Hin). lia.
    - exists (mkUser (UsersSeq (db srv) + 1) "" (now r) (now r)); simpl.
      split; [done|]. split; [done|]. split; [right|].
      { split; [|done]. intros v Hv. rewrite <- has_username_spec.
        by apply (proj1 (head_filter_None _ _) Hhead). }
      split; [apply lookup_insert_eq|].
      pose proof (wf_user_seq _ (wf_the_db _ Hwf)). lia. }
  exists u. do 4 (split; [done|]). intros r' Hc.
  assert (session_of (server (handle srv r)) r'
          = mkSession (Some (u_id u)) (Some "")) as Hs
    by (unfold session_of; by erewrite load_session_found).
  assert (logged_in (session_of (server (handle srv r)) r') (u_id u)) as Hin
    by by rewrite Hs.
  split; [done|]. split.
  - intros next. by apply requireLogin_in.
  - intros Hp. by apply (logged_in_passes _ _ (u_id u)).
Qed.

Lemma empty_username_logs_in_witness :
  route nameless_in = POST_login (Some "")
  ∧ response (handle demo nameless_in) = redirect "/home"
  ∧ sessions (server (handle demo nameless_in)) !! "s5"
    = Some (mkSession (Some 3) (Some ""))
  ∧ response (handle (server (handle demo nameless_in))
                (mkRequest (Some "s5") "g" 8000 GET_add_quote))
    ≠ redirect "/".
Proof.
  destruct (empty_username_logs_in demo nameless_in eq_refl demo_wf)
    as (u & Hname & Hresp & Hfound & Hsess & Hlater).
  split; [reflexivity|]. split; [exact Hresp|].
  split; [vm_compute; reflexivity|].
  apply (Hlater (mkRequest (Some "s5") "g" 8000 GET_add_quote));
    vm_compute; reflexivity.
Defined.

(** ** Ownership *)

Lemma json_text_inj o1 o2 : json_text o1 = json_text o2 → o1 = o2.
Proof. destruct o1, o2; simpl; congruence. Qed.

Lemma json_num_inj o1 o2 : json_num o1 = json_num o2 → o1 = o2.
Proof. destruct o1, o2; simpl; congruence. Qed.

Global Instance Quote_toJSON_inj : Inj (=) (=) Quote_toJSON.
Proof.
  intros [i1 t1 p1 l1 d1 c1 m1 o1] [i2 t2 p2 l2 d2 c2 m2 o2].
  unfold Quote_toJSON; simpl. intros Heq.
  injection Heq as -> -> -> Hl Hd -> -> Ho.
  apply json_text_inj in Hl, Hd. apply json_num_inj in Ho. by subst.
Qed.

Lemma json_shows_stringify quotes q : json_shows (JSON_stringify quotes) q ↔ q ∈ quotes.
Proof. unfold json_shows, JSON_stringify. apply list_elem_of_fmap_inj, _. Qed.

Lemma elem_of_owned uid q (l : list Quote) :
  q ∈ filter (owned_by uid) l ↔ UserId q = Some uid ∧ q ∈ l.
Proof. by rewrite list_elem_of_filter. Qed.

(** What a response discloses are rows of the session's user. *)
Lemma shown_is_owned srv r q :
  shows (response (handle srv r)) q →
  q ∈ Quotes (db srv)
  ∧ ∃ uid, logged_in (session_of srv r) uid ∧ UserId q = Some uid.
Proof.
  destruct (route r) as [|[| |name]| | | |body|id|id|id body| |] eqn:Hr.
  all: try (destruct (truthy (userId (session_of srv r))) eqn:Ht;
            [apply truthy_logged_in in Ht as [uid Hin]
            |by destruct (guard_closed srv r) as (-> & _);
               [by rewrite Hr|done|]]).
  - unfold handle, dispatch; rewrite Hr; unfold keep, App.get_landing.
    by destruct (truthy _).
  - by rewrite (handle_login_refused _ _ _ Hr).
  - by rewrite (handle_login_refused _ _ _ Hr).
  - by rewrite (handle_login _ _ _ Hr); destruct (head _).
  - unfold handle, dispatch; rewrite Hr; simpl. done.
  - rewrite (handle_kept _ _ _ (dispatch_GET_home _ _ Hr)).
    rewrite (get_home_run _ uid) by done. simpl.
    rewrite merge_sort_Permutation, elem_of_owned. intros [Ho Hq]. eauto.
  - unfold handle, dispatch; rewrite Hr; unfold keep, App.get_add_quote.
    by rewrite (requireLogin_in _ uid).
  - rewrite (handle_kept _ _ _ (dispatch_POST_add_quote _ _ _ Hr)).
    rewrite (post_add_quote_run_body _ _ _ uid) by done. simpl.
    destruct (b_quoteText body), (b_personName body); try done.
    by destruct (user_exists _ _).
  - rewrite (handle_kept _ _ _ (dispatch_POST_delete _ _ _ Hr)).
    by rewrite (post_delete_run _ _ uid).
  - rewrite (handle_kept _ _ _ (dispatch_GET_edit _ _ _ Hr)).
    rewrite (get_edit_run _ _ uid) by done. simpl.
    destruct (head _) as [q'|] eqn:Hhead; [|done]. simpl. intros ->.
    apply head_Some_elem_of, list_elem_of_filter in Hhead as [[_ Ho] Hq].
    eauto.
  - rewrite (handle_kept _ _ _ (dispatch_POST_edit _ _ _ _ Hr)).
    rewrite (post_edit_run_body _ _ _ _ uid) by done. by destruct (_ || _).
  - rewrite (handle_kept _ _ _ (dispatch_GET_stats _ _ Hr)).
    rewrite (get_stats_run _ uid) by done. cbn -[json_shows JSON_stringify].
    rewrite json_shows_stringify, elem_of_owned. intros [Ho Hq]. eauto.
  - rewrite (handle_kept _ _ _ (dispatch_GET_game _ _ Hr)).
    rewrite (get_game_run _ uid) by done. cbn -[json_shows JSON_stringify].
    case_bool_decide; cbn -[json_shows JSON_stringify].
    + intros [(l & [= <-] & Hq)|(j & [=] & _)]. by apply elem_of_nil in Hq.
    + intros [(l & [=] & _)|(j & [= <-] & Hq)].
      apply json_shows_stringify, elem_of_owned in Hq as [Ho Hq]. eauto.
Qed.

(** Every [where] object sent to the quotes table names the session's
    user as owner, and so does every row created. *)
Lemma queries_are_owner_filtered srv r qu :
  qu ∈ queries (handle srv r) →
  (∀ w, query_where qu = Some w →
        ∃ uid, logged_in (session_of srv r) uid ∧ w_UserId w = Some uid)
  ∧ (∀ v, qu = Quote_create_q v →
          ∃ uid, logged_in (session_of srv r) uid ∧ v_UserId v = Some uid).
Proof.
  destruct (route r) as [|[| |name]| | | |body|id|id|id body| |] eqn:Hr.
  all: try (destruct (truthy (userId (session_of srv r))) eqn:Ht;
            [apply truthy_logged_in in Ht as [uid Hin]
            |destruct (guard_closed srv r) as (_ & _ & ->);
               [by rewrite Hr|done|by intros ?%elem_of_nil]]).
  - unfold handle, dispatch; rewrite Hr; unfold keep, App.get_landing.
    destruct (truthy _); by intros ?%elem_of_nil.
  - rewrite (handle_login_refused _ _ _ Hr) by done. simpl.
    rewrite ?elem_of_cons, elem_of_nil; intros Hq; split; intros ? ?;
      by destruct_or!; subst.
  - rewrite (handle_login_refused _ _ _ Hr) by done. simpl.
    rewrite ?elem_of_cons, elem_of_nil; intros Hq; split; intros ? ?;
      by destruct_or!; subst.
  - rewrite (handle_login _ _ _ Hr). destruct (head _); simpl;
      rewrite ?elem_of_cons, elem_of_nil; intros Hq; split; intros ? ?;
      by destruct_or!; subst.
  - unfold handle, dispatch; rewrite Hr; simpl. by intros ?%elem_of_nil.
  - rewrite (handle_kept _ _ _ (dispatch_GET_home _ _ Hr)).
    rewrite (get_home_run _ uid) by done. simpl.
    intros ->%list_elem_of_singleton. split; [|done].
    intros w [= <-]. eauto.
  - unfold handle, dispatch; rewrite Hr; unfold keep, App.get_add_quote.
    rewrite (requireLogin_in _ uid) by done. by intros ?%elem_of_nil.
  - rewrite (handle_kept _ _ _ (dispatch_POST_add_quote _ _ _ Hr)).
    rewrite (post_add_quote_run_body _ _ _ uid) by done. simpl.
    intros Hq.
    assert (qu = Quote_create_q (posted body (Some uid))) as ->.
    { destruct (b_quoteText body), (b_personName body);
        try destruct (user_exists _ _); simpl in Hq;
        by apply list_elem_of_singleton in Hq. }
    split; [done|]. intros v [= <-]. eauto.
  - rewrite (handle_kept _ _ _ (dispatch_POST_delete _ _ _ Hr)).
    rewrite (post_delete_run _ _ uid) by done. simpl.
    intros ->%list_elem_of_singleton. split; [|done].
    intros w [= <-]. eauto.
  - rewrite (handle_kept _ _ _ (dispatch_GET_edit _ _ _ Hr)).
    rewrite (get_edit_run _ _ uid) by done. simpl.
    intros ->%list_elem_of_singleton. split; [|done].
    intros w [= <-]. eauto.
  - rewrite (handle_kept _ _ _ (dispatch_POST_edit _ _ _ _ Hr)).
    rewrite (post_edit_run_body _ _ _ _ uid) by done.
    destruct (_ || _); simpl; intros ->%list_elem_of_singleton;
      (split; [|done]); intros w [= <-]; eauto.
  - rewrite (handle_kept _ _ _ (dispatch_GET_stats _ _ Hr)).
    rewrite (get_stats_run _ uid) by done. simpl.
    intros ->%list_elem_of_singleton. split; [|done].
    intros w [= <-]. eauto.
  - rewrite (handle_kept _ _ _ (dispatch_GET_game _ _ Hr)).
    rewrite (get_game_run _ uid) by done. simpl.
    intros ->%list_elem_of_singleton. split; [|done].
    intros w [= <-]. eauto.
Qed.

(** The rows a step removes, rewrites or adds belong to the session's
    user. *)
Lemma db_step_touches o d d' q :
  db_step o d d' →
  (q ∈ Quotes d ∧ q ∉ Quotes d') ∨ (q ∈ Quotes d' ∧ q ∉ Quotes d) →
  ∃ uid, o = Some uid ∧ uid ≠ 0 ∧ UserId q = Some uid.
Proof.
  intros [|name now Hfresh|uid q' Ho Hz Hq' Hid Hex|uid id now body Ho Hz
         |uid id Ho Hz]; simpl.
  - intros [[? ?]|[? ?]]; done.
  - intros [[? ?]|[? ?]]; done.
  - rewrite elem_of_app, list_elem_of_singleton.
    intros [[? ?]|[[?| ->] ?]]; [tauto|tauto|]. eauto.
  - rewrite list_elem_of_fmap. intros [[Hq Hnot]|[(q0 & -> & Hq0) Hnot]].
    + destruct (decide (targets id uid q)) as [[_ Ht]|Ht]; [by eauto|].
      destruct Hnot. exists q. by rewrite decide_False.
    + destruct (decide (targets id uid q0)) as [[_ Ht]|Ht]; [by eauto|done].
  - rewrite list_elem_of_filter. intros [[Hq Hnot]|[[_ Hq] Hnot]]; [|done].
    destruct (decide (targets id uid q)) as [[_ Ht]|Ht]; [by eauto|tauto].
Qed.

(** The rows of any other user are, as a list, what they were. *)
Lemma db_step_frame o d d' other :
  db_step o d d' → o ≠ Some other →
  filter (owned_by other) (Quotes d') = filter (owned_by other) (Quotes d).
Proof.
  intros [|name now Hfresh|uid q' Ho Hz Hq' Hid Hex|uid id now body Ho Hz
         |uid id Ho Hz] Hother; simpl; try done.
  - rewrite filter_app, filter_cons_False, filter_nil, app_nil_r; [done|].
    unfold owned_by. congruence.
  - induction (Quotes d) as [|q l IH]; [done|]. rewrite fmap_cons.
    destruct (decide (targets id uid q)) as [[_ Ht]|Ht].
    + rewrite !filter_cons_False; [done|unfold owned_by..]; simpl; congruence.
    + rewrite !filter_cons, IH. done.
  - induction (Quotes d) as [|q l IH]; [done|]. rewrite !filter_cons.
    destruct (decide (¬ targets id uid q)) as [Ht|Ht].
    + rewrite filter_cons, IH. done.
    + rewrite IH. rewrite decide_False; [done|].
      apply dec_stable in Ht as [_ Ht]. unfold owned_by. congruence.
Qed.

(** C1, as the code has it. In [app.js], whatever the server state and
    the request: a quote the response discloses (in the listing, the edit
    form, the stats or the quiz data) is a row of the table owned by the user of the request's session; a
    row the request removes, rewrites or adds is owned by that user; the
    rows of every other user are as before; and every [where] object sent
    to the quotes table carries that user as owner. Without a logged-in
    session nothing is disclosed, changed or queried. *)
Theorem session_reaches_only_its_own_quotes srv r :
  (∀ q, shows (response (handle srv r)) q →
        q ∈ Quotes (db srv)
        ∧ ∃ uid, logged_in (session_of srv r) uid ∧ UserId q = Some uid)
  ∧ (∀ q, (q ∈ Quotes (db srv) ∧ q ∉ Quotes (db (server (handle srv r))))
          ∨ (q ∈ Quotes (db (server (handle srv r))) ∧ q ∉ Quotes (db srv)) →
          ∃ uid, logged_in (session_of srv r) uid ∧ UserId q = Some uid)
  ∧ (∀ other, userId (session_of srv r) ≠ Some other →
        filter (owned_by other) (Quotes (db (server (handle srv r))))
        = filter (owned_by other) (Quotes (db srv)))
  ∧ (∀ qu w, qu ∈ queries (handle srv r) → query_where qu = Some w →
        ∃ uid, logged_in (session_of srv r) uid
               ∧ w_UserId w = Some uid).
Proof.
  split; [|split; [|split]].
  - apply shown_is_owned.
  - intros q Hq.
    destruct (db_step_touches _ _ _ q (handle_db_step srv r) Hq)
      as (uid & Ho & Hz & Hq').
    exists uid. by repeat split.
  - intros other Hother. by eapply db_step_frame, Hother; apply handle_db_step.
  - intros qu w Hqu Hw.
    by apply (proj1 (queries_are_owner_filtered srv r qu Hqu)).
Qed.

Lemma session_reaches_only_its_own_quotes_witness :
  shows (response (handle demo (alice 5000 GET_home)))
        (mkQuote 1 "Hi" "Bob" None None 2000 2000 (Some 1))
  ∧ mkQuote 1 "Hi" "Bob" None None 2000 2000 (Some 1) ∈ Quotes (db demo)
  ∧ ∃ uid, logged_in (session_of demo (alice 5000 GET_home)) uid
           ∧ UserId (mkQuote 1 "Hi" "Bob" None None 2000 2000 (Some 1))
             = Some uid.
Proof.
  assert (shows (response (handle demo (alice 5000 GET_home)))
                (mkQuote 1 "Hi" "Bob" None None 2000 2000 (Some 1))) as Hshown.
  { let resp := eval vm_compute in (response (handle demo (alice 5000 GET_home)))
    in change (shows resp (mkQuote 1 "Hi" "Bob" None None 2000 2000 (Some 1))).
    simpl. apply elem_of_cons. right. apply elem_of_cons. by left. }
  split; [exact Hshown|].
  destruct (session_reaches_only_its_own_quotes demo (alice 5000 GET_home))
    as (Hvisible & _).
  exact (Hvisible _ Hshown).
Defined.

(** C1, as the claim has it, fails in [part_000], whose routes know no
    session and no owner: its delete handler sends a [where] object with
    the id alone, and the quote of user 2 is deleted for whoever asks. *)
Lemma legacy_delete_ignores_owner :
  Quotes (db demo) !! 1%nat
  = Some (mkQuote 2 "Yo" "Al" (Some "Rome") None 3000 3000 (Some 2))
  ∧ (Legacy.post_delete 2 (db demo)).2
    = [Quote_destroy_q (mkWhere (Some 2) None)]
  ∧ (Legacy.post_delete 2 (db demo)).1.1 = redirect "/"
  ∧ Quotes (Legacy.post_delete 2 (db demo)).1.2
    = [mkQuote 1 "Hi" "Bob" None None 2000 2000 (Some 1);
       mkQuote 3 "Later" "Cy" None None 4000 4000 (Some 1)].
Proof. repeat split; vm_compute; reflexivity. Qed.

(** ** The walk through *)

Example home_after_add :
  response (handle quote_added (alice 2500 GET_home))
  = render (home [mkQuote 1 "Hi" "Bob" None None 2000 2000 (Some 1)]
                 (Some "alice")).
Proof. vm_compute. reflexivity. Qed.

Example home_after_edit :
  response (handle quote_edited (alice 3500 GET_home))
  = render (home [mkQuote 1 "Hi!" "Bob" None None 2000 3000 (Some 1)]
                 (Some "alice")).
Proof. vm_compute. reflexivity. Qed.

Example home_after_delete :
  response (handle quote_deleted (alice 4500 GET_home))
  = render (home [] (Some "alice")).
Proof. vm_compute. reflexivity. Qed.

(** ** Sessions across requests *)

(** X1. A request reads and writes the session of its own id only: every
    other stored session is what it was. Unless the request is a login or
    a logout, its own session is stored as it was loaded. *)
Theorem request_keeps_other_sessions srv r :
  (∀ sid, sid ≠ session_id srv r →
     sessions (server (handle srv r)) !! sid = sessions srv !! sid)
  ∧ ((∀ name, route r ≠ POST_login name) → route r ≠ GET_logout →
     sessions (server (handle srv r)) !! session_id srv r
     = Some (session_of srv r)).
Proof.
  split.
  - intros sid Hne. unfold handle. fold (session_id srv r).
    destruct (dispatch _ _ _) as [[[resp [s|]] d] l]; simpl.
    + by rewrite lookup_insert_ne.
    + by rewrite lookup_delete_ne.
  - intros Hlogin Hlogout.
    destruct (dispatch_kept r (session_of srv r) Hlogin Hlogout) as [h Hd].
    rewrite (handle_kept _ _ _ Hd). simpl. apply lookup_insert_eq.
Qed.

Lemma request_keeps_other_sessions_witness :
  "s2" ≠ session_id demo (alice 5000 GET_logout)
  ∧ sessions (server (handle demo (alice 5000 GET_logout))) !! "s2"
    = sessions demo !! "s2"
  ∧ sessions (server (handle demo (mkRequest None "s9" 5000 GET_landing))) !! "s9"
    = Some new_session.
Proof.
  assert ("s2" ≠ session_id demo (alice 5000 GET_logout)) as Hne
    by (vm_compute; discriminate).
  split; [exact Hne|]. split.
  - exact (proj1 (request_keeps_other_sessions demo (alice 5000 GET_logout))
             "s2" Hne).
  - apply (proj2 (request_keeps_other_sessions demo
                    (mkRequest None "s9" 5000 GET_landing))); discriminate.
Defined.

(** X2. A logout needs no login. It redirects to the landing page, issues
    no query, leaves the database as it was and removes the request's
    session from the store; a later visit of the landing page with the
    same cookie gets the landing page, not the redirect to the listing. *)
Theorem logout_ends_the_session srv r :
  route r = GET_logout →
  response (handle srv r) = redirect "/"
  ∧ db (server (handle srv r)) = db srv
  ∧ queries (handle srv r) = []
  ∧ sessions (server (handle srv r)) = delete (session_id srv r) (sessions srv)
  ∧ ∀ c r', cookie r = Some c → cookie r' = Some c → route r' = GET_landing →
      response (handle (server (handle srv r)) r') = render landing.
Proof.
  intros Hr.
  assert (handle srv r
          = mkOutcome (redirect "/")
              (mkServer (db srv) (delete (session_id srv r) (sessions srv))) [])
    as Hout by (unfold handle, dispatch; by rewrite Hr).
  rewrite Hout. simpl. do 4 (split; [done|]).
  intros c r' Hc Hc' Hr'.
  pose proof (logout_forgets srv r c Hr Hc) as Hgone.
  rewrite Hout in Hgone. simpl in Hgone.
  unfold handle, dispatch, session_of. rewrite Hr'.
  by rewrite (load_session_new _ _ c).
Qed.

Lemma logout_ends_the_session_witness :
  route (alice 5000 GET_logout) = GET_logout
  ∧ response (handle demo (alice 5000 GET_landing)) = redirect "/home"
  ∧ response (handle (server (handle demo (alice 5000 GET_logout)))
                (alice 6000 GET_landing))
    = render landing.
Proof.
  split; [reflexivity|]. split; [vm_compute; reflexivity|].
  destruct (logout_ends_the_session demo (alice 5000 GET_logout) eq_refl)
    as (_ & _ & _ & _ & Hlater).
  exact (Hlater "s1" (alice 6000 GET_landing) eq_refl eq_refl eq_refl).
Defined.

(** X3. After a login on a well-formed server, the landing page visited
    with the login's session redirects to the listing, reads nothing and
    writes nothing. *)
Theorem landing_after_login_goes_home srv r name r' :
  wf_server srv →
  route r = POST_login (Some name) →
  cookie r' = Some (session_id srv r) →
  route r' = GET_landing →
  response (handle (server (handle srv r)) r') = redirect "/home"
  ∧ db (server (handle (server (handle srv r)) r')) = db (server (handle srv r))
  ∧ queries (handle (server (handle srv r)) r') = [].
Proof.
  intros Hwf Hr Hc Hr'.
  assert (∃ s, sessions (server (handle srv r)) !! session_id srv r = Some s
               ∧ truthy (userId s) = true) as (s & Hs & Ht).
  { rewrite (handle_login _ _ _ Hr).
    destruct (head _) as [u|] eqn:Hhead; simpl; eexists;
      (split; [apply lookup_insert_eq|]); simpl.
    - apply head_Some_elem_of, list_elem_of_filter in Hhead as [_ Hin].
      pose proof (wf_user_ids _ (wf_the_db _ Hwf) u Hin).
      rewrite bool_decide_eq_false_2; [done|lia].
    - pose proof (wf_user_seq _ (wf_the_db _ Hwf)).
      rewrite bool_decide_eq_false_2; [done|lia]. }
  assert (session_of (server (handle srv r)) r' = s) as Hsess
    by (unfold session_of; by erewrite load_session_found).
  rewrite (handle_kept _ _ (App.get_landing (session_of (server (handle srv r)) r')))
    by (unfold dispatch; by rewrite Hr').
  rewrite Hsess. unfold App.get_landing. by rewrite Ht.
Qed.

Lemma landing_after_login_goes_home_witness :
  route carol_in = POST_login (Some "carol")
  ∧ response (handle (server (handle demo carol_in))
                (mkRequest (Some "s3") "g" 8000 GET_landing))
    = redirect "/home".
Proof.
  split; [reflexivity|].
  apply (landing_after_login_goes_home demo carol_in "carol"
           (mkRequest (Some "s3") "g" 8000 GET_landing) demo_wf eq_refl);
    reflexivity.
Defined.

(** ** What the routes write *)

(** X4. A GET request, logout included, never writes the database, and
    every call it makes on the models is a find. *)
Theorem get_requests_only_read srv r :
  is_get (route r) = true →
  db (server (handle srv r)) = db srv
  ∧ Forall (λ q, is_find q = true) (queries (handle srv r)).
Proof.
  intros Hget.
  destruct (route r) as [|name| | | |body|id|id|id body| |] eqn:Hr;
    try discriminate.
  all: try (destruct (truthy (userId (session_of srv r))) eqn:Ht;
            [apply truthy_logged_in in Ht as [uid Hin]
            |destruct (guard_closed srv r) as (_ & -> & ->);
               [by rewrite Hr|done|by split]]).
  - unfold handle, dispatch; rewrite Hr; unfold keep, App.get_landing.
    by destruct (truthy _).
  - unfold handle, dispatch; rewrite Hr; simpl. by split.
  - rewrite (handle_kept _ _ _ (dispatch_GET_home _ _ Hr)).
    rewrite (get_home_run _ uid) by done. simpl. split; [done|].
    by repeat constructor.
  - unfold handle, dispatch; rewrite Hr; unfold keep, App.get_add_quote.
    rewrite (requireLogin_in _ uid) by done. by split.
  - rewrite (handle_kept _ _ _ (dispatch_GET_edit _ _ _ Hr)).
    rewrite (get_edit_run _ _ uid) by done. simpl. split; [done|].
    by repeat constructor.
  - rewrite (handle_kept _ _ _ (dispatch_GET_stats _ _ Hr)).
    rewrite (get_stats_run _ uid) by done. simpl. split; [done|].
    by repeat constructor.
  - rewrite (handle_kept _ _ _ (dispatch_GET_game _ _ Hr)).
    rewrite (get_game_run _ uid) by done. simpl. split; [done|].
    by repeat constructor.
Qed.

Lemma get_requests_only_read_witness :
  is_get (route (alice 5000 (GET_edit 1))) = true
  ∧ db (server (handle demo (alice 5000 (GET_edit 1)))) = db demo
  ∧ Forall (λ q, is_find q = true) (queries (handle demo (alice 5000 (GET_edit 1)))).
Proof.
  split; [reflexivity|].
  exact (get_requests_only_read demo (alice 5000 (GET_edit 1)) eq_refl).
Defined.

Lemma handle_users_same srv r :
  (∀ name, route r ≠ POST_login name) →
  Users (db (server (handle srv r))) = Users (db srv).
Proof.
  intros Hlogin.
  destruct (route r) as [|name| | | |body|id|id|id body| |] eqn:Hr;
    try (by destruct (Hlogin name)).
  all: try (destruct (truthy (userId (session_of srv r))) eqn:Ht;
            [apply truthy_logged_in in Ht as [uid Hin]
            |by destruct (guard_closed srv r) as (_ & -> & _);
               [by rewrite Hr|done|]]).
  - unfold handle, dispatch; rewrite Hr; unfold keep, App.get_landing.
    by destruct (truthy _).
  - unfold handle, dispatch; by rewrite Hr.
  - rewrite (handle_kept _ _ _ (dispatch_GET_home _ _ Hr)).
    by rewrite (get_home_run _ uid).
  - unfold handle, dispatch; rewrite Hr; unfold keep, App.get_add_quote.
    by rewrite (requireLogin_in _ uid).
  - rewrite (handle_kept _ _ _ (dispatch_POST_add_quote _ _ _ Hr)).
    rewrite (post_add_quote_run_body _ _ _ uid) by done. simpl.
    destruct (b_quoteText body), (b_personName body); try done.
    by destruct (user_exists _ _).
  - rewrite (handle_kept _ _ _ (dispatch_POST_delete _ _ _ Hr)).
    by rewrite (post_delete_run _ _ uid).
  - rewrite (handle_kept _ _ _ (dispatch_GET_edit _ _ _ Hr)).
    by rewrite (get_edit_run _ _ uid).
  - rewrite (handle_kept _ _ _ (dispatch_POST_edit _ _ _ _ Hr)).
    rewrite (post_edit_run_body _ _ _ _ uid) by done. by destruct (_ || _).
  - rewrite (handle_kept _ _ _ (dispatch_GET_stats _ _ Hr)).
    by rewrite (get_stats_run _ uid).
  - rewrite (handle_kept _ _ _ (dispatch_GET_game _ _ Hr)).
    by rewrite (get_game_run _ uid).
Qed.

(** X5. No request removes or rewrites a user: whatever requests come in,
    the users table keeps its rows in place and only grows at its end. No
    request other than a login touches it at all. *)
Theorem users_are_only_added srv rs :
  Users (db srv) `prefix_of` Users (db (run srv rs))
  ∧ (Forall (λ r, ∀ name, route r ≠ POST_login name) rs →
     Users (db (run srv rs)) = Users (db srv)).
Proof.
  split; [apply run_users_prefix|].
  induction rs as [|r rs IH] using rev_ind; [done|].
  rewrite Forall_app, Forall_singleton. intros [Hrs Hr].
  rewrite run_snoc, <- (IH Hrs). by apply handle_users_same.
Qed.

Lemma users_are_only_added_witness :
  Forall (λ r, ∀ name, route r ≠ POST_login name)
    [alice 5000 GET_logout; bob 6000 (POST_delete 2)]
  ∧ Users (db (run demo [alice 5000 GET_logout; bob 6000 (POST_delete 2)]))
    = Users (db demo).
Proof.
  assert (Forall (λ r, ∀ name, route r ≠ POST_login name)
            [alice 5000 GET_logout; bob 6000 (POST_delete 2)]) as Hrs
    by (repeat constructor; discriminate).
  split; [exact Hrs|].
  exact (proj2 (users_are_only_added demo
                  [alice 5000 GET_logout; bob 6000 (POST_delete 2)]) Hrs).
Defined.

(** ** Logging in, the rest *)



(** ** Reachable servers *)

(** X7. Whatever requests the empty server has handled: user and quote
    ids are positive, below their counters and unique; no two users share
    a name; every quote's owner is null or the id of a user; and every
    stored session that carries a user id carries the id and the name of a
    user of the table. *)
Theorem reachable_server_is_well_formed rs : wf_server (run initial rs).
Proof. apply run_wf, wf_initial. Qed.



(** ** Writes, then reads *)

Lemma filter_targets_gone id uid (l : list Quote) :
  filter (targets id uid) (filter (λ q, ¬ targets id uid q) l) = [].
Proof.
  apply filter_none. intros q [Hq _]%list_elem_of_filter. done.
Qed.

(** X9. After a delete by a logged-in session the table holds the rows it
    held, in their order, minus the rows of that id owned by the session's
    user. For that user the edit form of the id then answers 404, and a
    second delete of the id changes nothing. *)
Theorem deleted_quote_is_gone srv r id uid :
  route r = POST_delete id →
  logged_in (session_of srv r) uid →
  response (handle srv r) = redirect "/home"
  ∧ Quotes (db (server (handle srv r)))
    = filter (λ q, ¬ targets id uid q) (Quotes (db srv))
  ∧ Users (db (server (handle srv r))) = Users (db srv)
  ∧ ∀ r', logged_in (session_of (server (handle srv r)) r') uid →
      (route r' = GET_edit id →
         response (handle (server (handle srv r)) r')
         = send 404 "Quote not found")
      ∧ (route r' = POST_delete id →
           db (server (handle (server (handle srv r)) r'))
           = db (server (handle srv r))).
Proof.
  intros Hr Hin.
  assert (Quotes (db (server (handle srv r)))
          = filter (λ q, ¬ targets id uid q) (Quotes (db srv))) as Hq.
  { rewrite (handle_kept _ _ _ (dispatch_POST_delete _ _ _ Hr)).
    by rewrite (post_delete_run _ _ uid). }
  split; [|split; [exact Hq|split]].
  - rewrite (handle_kept _ _ _ (dispatch_POST_delete _ _ _ Hr)).
    by rewrite (post_delete_run _ _ uid).
  - rewrite (handle_kept _ _ _ (dispatch_POST_delete _ _ _ Hr)).
    by rewrite (post_delete_run _ _ uid).
  - intros r' Hin'. split; intros Hr'.
    + rewrite (handle_kept _ _ _ (dispatch_GET_edit _ _ _ Hr')).
      rewrite (get_edit_run _ _ uid) by done. simpl.
      by rewrite Hq, filter_targets_gone.
    + rewrite (handle_kept _ _ _ (dispatch_POST_delete _ _ _ Hr')).
      rewrite (post_delete_run _ _ uid) by done. simpl.
      rewrite filter_all; [apply db_eta|].
      intros q. rewrite Hq. by intros [? _]%list_elem_of_filter.
Qed.

Lemma deleted_quote_is_gone_witness :
  logged_in (session_of demo (alice 5000 (POST_delete 1))) 1
  ∧ response (handle demo (alice 5000 (POST_delete 1))) = redirect "/home"
  ∧ response (handle (server (handle demo (alice 5000 (POST_delete 1))))
                (alice 6000 (GET_edit 1)))
    = send 404 "Quote not found".
Proof.
  assert (logged_in (session_of demo (alice 5000 (POST_delete 1))) 1) as Hin
    by (split; [vm_compute; reflexivity|lia]).
  split; [exact Hin|].
  destruct (deleted_quote_is_gone demo (alice 5000 (POST_delete 1)) 1 1
              eq_refl Hin) as (Hresp & _ & _ & Hlater).
  split; [exact Hresp|].
  apply (Hlater (alice 6000 (GET_edit 1))); [|reflexivity].
  split; [vm_compute; reflexivity|lia].
Defined.

Lemma filter_targets_fresh id uid (l : list Quote) (q : Quote) :
  (∀ q', q' ∈ l → q_id q' ≠ id) → targets id uid q →
  filter (targets id uid) (l ++ [q]) = [q].
Proof.
  intros Hfresh Hq. rewrite filter_app, filter_none.
  - by rewrite filter_cons_True.
  - intros q' Hq' [Hid _]. by eapply Hfresh.
Qed.

(** X10. On a well-formed database a successful create gives the new row
    the next id, which no other row has: for the same user the edit form
    of that id then shows exactly the row just created, and the listing
    and the stats data contain it. *)
Theorem created_quote_is_found_by_its_id srv r (body : QuoteForm) :
  wf_db (db srv) →
  route r = POST_add_quote body →
  response (handle srv r) = redirect "/home" →
  ∃ uid q,
    logged_in (session_of srv r) uid
    ∧ q_id q = QuotesSeq (db srv) + 1
    ∧ createdAt q = now r ∧ updatedAt q = now r
    ∧ last (Quotes (db (server (handle srv r)))) = Some q
    ∧ ∀ r', logged_in (session_of (server (handle srv r)) r') uid →
        (route r' = GET_edit (q_id q) →
           response (handle (server (handle srv r)) r')
           = render (edit_quote q
                       (sess_username (session_of (server (handle srv r)) r'))))
        ∧ (route r' = GET_home →
             shows (response (handle (server (handle srv r)) r')) q)
        ∧ (route r' = GET_stats →
             shows (response (handle (server (handle srv r)) r')) q).
Proof.
  intros Hwf Hr Hresp.
  destruct (handle_guarded srv r) as [uid Hin].
  { by rewrite Hr. }
  { by rewrite Hresp. }
  exists uid. revert Hresp.
  rewrite (handle_kept _ _ _ (dispatch_POST_add_quote _ _ _ Hr)).
  rewrite (post_add_quote_run _ _ _ uid) by done. simpl.
  destruct (f_quoteText body) as [t|], (f_personName body) as [p|];
    try discriminate.
  destruct (user_exists (db srv) uid); [|discriminate].
  simpl. intros _.
  set (q := mkQuote (QuotesSeq (db srv) + 1) t p
              (column (or_null (field (f_location body))))
              (column (or_null (field (f_date body))))
              (now r) (now r) (Some uid)).
  exists q. do 4 (split; [done|]).
  split; [by rewrite last_snoc|].
  intros r' Hin'.
  assert (filter (targets (q_id q) uid) (Quotes (db srv) ++ [q]) = [q]) as Hone.
  { apply filter_targets_fresh; [|done].
    intros q' Hq'. pose proof (wf_quote_ids _ Hwf q' Hq'). simpl. lia. }
  assert (q ∈ filter (owned_by uid) (Quotes (db srv) ++ [q])) as Hmine.
  { apply list_elem_of_filter. split; [done|].
    apply elem_of_app. right. by apply list_elem_of_singleton. }
  split; [|split]; intros Hr'.
  - rewrite (handle_kept _ _ _ (dispatch_GET_edit _ _ _ Hr')).
    rewrite (get_edit_run _ _ uid) by done.
    cbn [fst snd response server db Quotes]. by rewrite Hone.
  - rewrite (handle_kept _ _ _ (dispatch_GET_home _ _ Hr')).
    rewrite (get_home_run _ uid) by done.
    cbn [fst snd response server db Quotes shows].
    by rewrite merge_sort_Permutation.
  - rewrite (handle_kept _ _ _ (dispatch_GET_stats _ _ Hr')).
    rewrite (get_stats_run _ uid) by done.
    cbn [fst snd response server db Quotes shows].
    by apply json_shows_stringify.
Qed.

Lemma created_quote_is_found_by_its_id_witness :
  response (handle demo fourth_post) = redirect "/home"
  ∧ response (handle (server (handle demo fourth_post)) (alice 6000 (GET_edit 4)))
    = render (edit_quote (mkQuote 4 "New" "Di" None None 5000 5000 (Some 1))
                (Some "alice")).
Proof.
  assert (response (handle demo fourth_post) = redirect "/home") as Hresp
    by (vm_compute; reflexivity).
  split; [exact Hresp|].
  destruct (created_quote_is_found_by_its_id demo fourth_post
              (form (Some "New") (Some "Di") (Some "") None)
              (wf_the_db _ demo_wf) eq_refl Hresp)
    as (uid & q & Hin & Hid & Hc & Hu & Hlast & Hlater).
  assert (uid = 1) as ->.
  { destruct Hin as [Hs _]. vm_compute in Hs. congruence. }
  assert (q = mkQuote 4 "New" "Di" None None 5000 5000 (Some 1)) as ->.
  { vm_compute in Hlast. congruence. }
  destruct (Hlater (alice 6000 (GET_edit 4))) as (Hform & _).
  { split; [vm_compute; reflexivity|lia]. }
  exact (Hform eq_refl).
Defined.






(** ** The stats page *)

(** X12. For a logged-in user the stats page is handed one document: the
    array that has, for each quote the user owns and in table order, the
    object of its eight columns, internal ones included; with no quote it
    is the empty array. The page writes nothing. When the user owns two
    quotes or more the quiz page is handed the very same document. *)
Theorem stats_serializes_all_owned srv r uid :
  route r = GET_stats →
  logged_in (session_of srv r) uid →
  response (handle srv r)
  = render
      (stats (JArr ((λ q, JObj [("id", JNum (q_id q));
                                         ("quoteText", JStr (quoteText q));
                                         ("personName", JStr (personName q));
                                         ("location",
                                          match location q with
                                          | Some s => JStr s
                                          | None => JNull
                                          end);
                                         ("date",
                                          match date q with
                                          | Some s => JStr s
                                          | None => JNull
                                          end);
                                         ("createdAt", JNum (createdAt q));
                                         ("updatedAt", JNum (updatedAt q));
                                         ("UserId",
                                          match UserId q with
                                          | Some n => JNum n
                                          | None => JNull
                                          end)])
                      <$> filter (owned_by uid) (Quotes (db srv))))
             (sess_username (session_of srv r)))
  ∧ db (server (handle srv r)) = db srv
  ∧ (filter (owned_by uid) (Quotes (db srv)) = [] →
     response (handle srv r)
     = render (stats (JArr []) (sess_username (session_of srv r))))
  ∧ ∀ r', route r' = GET_game → logged_in (session_of srv r') uid →
      (2 ≤ length (filter (owned_by uid) (Quotes (db srv))))%nat →
      ∃ j, response (handle srv r)
           = render (stats j (sess_username (session_of srv r)))
           ∧ response (handle srv r')
             = render (game None None (Some j)
                         (sess_username (session_of srv r'))).
Proof.
  intros Hr Hin.
  rewrite (handle_kept _ _ _ (dispatch_GET_stats _ _ Hr)).
  rewrite (get_stats_run _ uid) by done. simpl.
  split; [done|]. split; [done|]. split; [by intros ->|].
  intros r' Hr' Hin' Hlen. eexists. split; [done|].
  rewrite (handle_kept _ _ _ (dispatch_GET_game _ _ Hr')).
  rewrite (get_game_run _ uid) by done. simpl.
  rewrite bool_decide_eq_false_2 by lia. done.
Qed.

Lemma stats_serializes_all_owned_witness :
  logged_in (session_of demo (bob 5000 GET_stats)) 2
  ∧ response (handle demo (bob 5000 GET_stats))
    = render
        (stats (JArr [JObj [("id", JNum 2); ("quoteText", JStr "Yo");
                            ("personName", JStr "Al");
                            ("location", JStr "Rome"); ("date", JNull);
                            ("createdAt", JNum 3000);
                            ("updatedAt", JNum 3000); ("UserId", JNum 2)]])
               (Some "bob")).
Proof.
  assert (logged_in (session_of demo (bob 5000 GET_stats)) 2) as Hin
    by (split; [vm_compute; reflexivity|lia]).
  split; [exact Hin|].
  destruct (stats_serializes_all_owned demo (bob 5000 GET_stats) 2 eq_refl Hin)
    as [Hresp _].
  rewrite Hresp. vm_compute. reflexivity.
Defined.

(** ** What the rows look like *)

Lemma column_or_null_not_empty v : column (or_null v) ≠ Some "".
Proof.
  destruct v as [| |s]; simpl; [done|done|].
  case_bool_decide; simpl; congruence.
Qed.

Lemma set_nullable_or_null v old : set_nullable (or_null v) old = column (or_null v).
Proof. pose proof (or_null_defined v). by destruct (or_null v). Qed.

Lemma handle_keeps_rows_tidy srv r :
  Forall tidy (Quotes (db srv)) →
  Forall tidy (Quotes (db (server (handle srv r)))).
Proof.
  intros Htidy.
  destruct (route r) as [|[| |name]| | | |body|id|id|id body| |] eqn:Hr.
  all: try (destruct (truthy (userId (session_of srv r))) eqn:Ht;
            [apply truthy_logged_in in Ht as [uid Hin]
            |by destruct (guard_closed srv r) as (_ & -> & _);
               [by rewrite Hr|done|]]).
  - unfold handle, dispatch; rewrite Hr; unfold keep, App.get_landing.
    by destruct (truthy _).
  - by rewrite (handle_login_refused _ _ _ Hr).
  - by rewrite (handle_login_refused _ _ _ Hr).
  - rewrite (handle_login _ _ _ Hr). by destruct (head _).
  - unfold handle, dispatch; by rewrite Hr.
  - rewrite (handle_kept _ _ _ (dispatch_GET_home _ _ Hr)).
    by rewrite (get_home_run _ uid).
  - unfold handle, dispatch; rewrite Hr; unfold keep, App.get_add_quote.
    by rewrite (requireLogin_in _ uid).
  - rewrite (handle_kept _ _ _ (dispatch_POST_add_quote _ _ _ Hr)).
    rewrite (post_add_quote_run_body _ _ _ uid) by done. simpl.
    destruct (b_quoteText body), (b_personName body); try done.
    destruct (user_exists _ _); [|done]. simpl.
    apply Forall_app. split; [done|]. apply Forall_singleton.
    split; [exists uid; split; [done|apply Hin]|].
    split; apply column_or_null_not_empty.
  - rewrite (handle_kept _ _ _ (dispatch_POST_delete _ _ _ Hr)).
    rewrite (post_delete_run _ _ uid) by done. simpl.
    rewrite Forall_forall in Htidy. apply Forall_forall.
    intros q [_ Hq]%list_elem_of_filter. by apply Htidy.
  - rewrite (handle_kept _ _ _ (dispatch_GET_edit _ _ _ Hr)).
    by rewrite (get_edit_run _ _ uid).
  - rewrite (handle_kept _ _ _ (dispatch_POST_edit _ _ _ _ Hr)).
    rewrite (post_edit_run_body _ _ _ _ uid) by done.
    destruct (_ || _); [done|]. simpl.
    apply Forall_fmap. eapply Forall_impl; [exact Htidy|].
    intros q (Hown & Hloc & Hdate). simpl.
    destruct (decide _); [|done].
    unfold tidy, apply_values, posted; simpl.
    split; [done|]. rewrite !set_nullable_or_null.
    split; apply column_or_null_not_empty.
  - rewrite (handle_kept _ _ _ (dispatch_GET_stats _ _ Hr)).
    by rewrite (get_stats_run _ uid).
  - rewrite (handle_kept _ _ _ (dispatch_GET_game _ _ Hr)).
    by rewrite (get_game_run _ uid).
Qed.

(** X13. Whatever requests the empty server has handled, every stored
    quote has an owner, and its location and its date are each null or a
    non-empty text: an empty optional field never reaches the table. *)
Theorem stored_quotes_are_tidy rs : Forall tidy (Quotes (db (run initial rs))).
Proof.
  induction rs as [|r rs IH] using rev_ind; [by constructor|].
  rewrite run_snoc. by apply handle_keeps_rows_tidy.
Qed.

(** ** The sessionless variant, route by route *)

Lemma filter_everything (l : list Quote) :
  filter (λ q, matches (mkWhere None None) q) l = l.
Proof. apply filter_all. intros q _. by unfold matches. Qed.

Lemma matches_id id q : matches (mkWhere (Some id) None) q ↔ has_id id q.
Proof.
  unfold matches, has_id; simpl. rewrite andb_true_r. apply bool_decide_spec.
Qed.

Lemma filter_id id (l : list Quote) :
  filter (λ q, matches (mkWhere (Some id) None) q) l = filter (has_id id) l.
Proof. apply list_filter_iff, matches_id. Qed.

(** X14. The home page of [part_000] lists every quote of the table,
    whoever owns it, newest first, with one ordered find and no write. *)
Theorem legacy_home_lists_every_quote d :
  ∃ listing,
    Legacy.get_home d
    = (render (home listing None), d,
       [Quote_findAll_q (mkWhere None None) true])
    ∧ listing ≡ₚ Quotes d
    ∧ ∀ q1 q2 i j,
        listing !! i = Some q2 → listing !! j = Some q1 →
        createdAt q1 < createdAt q2 → (i < j)%nat.
Proof.
  exists (merge_sort newer_first (Quotes d)). split; [|split].
  - unfold Legacy.get_home, try_catch, Quote_findAll, bind, issue, get_db, ret.
    simpl. by rewrite filter_everything.
  - apply merge_sort_Permutation.
  - intros q1 q2 i j Hi Hj Hlt.
    pose proof (StronglySorted_merge_sort newer_first (Quotes d)) as Hs.
    destruct (Nat.lt_trichotomy i j) as [?|[->|Hji]]; [done| |].
    + rewrite Hi in Hj. injection Hj as ->. lia.
    + pose proof (StronglySorted_lookup_lt _ _ _ _ _ _ Hs Hj Hi Hji) as HR.
      unfold newer_first in HR. lia.
Qed.




(** X16. In [part_000] the routes that take an id select by the id alone.
    A delete removes every row of that id, whoever owns it, keeps the
    others in place and redirects to [/]; an edit rewrites the rows of that
    id and no other; the edit form answers 404 exactly when no row has
    the id, and otherwise shows a row of that id. *)
Theorem legacy_routes_select_by_id_alone id d :
  Legacy.post_delete id d
  = (redirect "/",
     mkDB (Users d) (filter (λ q, ¬ has_id id q) (Quotes d))
          (UsersSeq d) (QuotesSeq d),
     [Quote_destroy_q (mkWhere (Some id) None)])
  ∧ (∀ now (body : QuoteForm),
       (Legacy.post_edit now id body d).1
       = (redirect "/",
          mkDB (Users d)
               ((λ q, if decide (has_id id q) then edited now body q else q)
                  <$> Quotes d)
               (UsersSeq d) (QuotesSeq d)))
  ∧ ((Legacy.get_edit id d).1.1 = send 404 "Quote not found"
     ↔ ∀ q, q ∈ Quotes d → q_id q ≠ id)
  ∧ (∀ q, (Legacy.get_edit id d).1.1 = render (edit_quote q None) →
          q ∈ Quotes d ∧ q_id q = id)
  ∧ (Legacy.get_edit id d).1.2 = d.
Proof.
  split; [|split; [|split; [|split]]].
  - unfold Legacy.post_delete, try_catch, Quote_destroy, bind, issue, get_db,
      put_db, ret; simpl.
    do 3 f_equal. apply list_filter_iff. intros q. by rewrite matches_id.
  - intros now body.
    unfold Legacy.post_edit, try_catch, Quote_update, bind, issue, get_db,
      put_db, ret; simpl.
    rewrite !field_not_null; simpl. do 2 f_equal.
    apply list_fmap_ext. intros _ q _. rewrite <- apply_values_edited.
    unfold posted; simpl.
    destruct (decide (has_id id q)) as [Ht|Ht].
    + apply matches_id in Ht. by destruct (matches _ q).
    + rewrite <- matches_id in Ht. by destruct (matches _ q).
  - unfold Legacy.get_edit, try_catch, Quote_findOne, bind, issue, get_db, ret;
      simpl.
    rewrite filter_id.
    destruct (head _) as [q|] eqn:Hhead; simpl.
    + split; [discriminate|]. intros Hnone.
      apply head_Some_elem_of, list_elem_of_filter in Hhead as [Hid Hq].
      by destruct (Hnone q Hq).
    + split; [|done]. intros _ q Hq Hid.
      by apply (proj1 (head_filter_None _ _) Hhead q Hq).
  - intros q.
    unfold Legacy.get_edit, try_catch, Quote_findOne, bind, issue, get_db, ret;
      simpl.
    rewrite filter_id.
    destruct (head _) as [q'|] eqn:Hhead; simpl; [|discriminate].
    intros [= ->].
    by apply head_Some_elem_of, list_elem_of_filter in Hhead as [Hid Hq].
  - unfold Legacy.get_edit, try_catch, Quote_findOne, bind, issue, get_db, ret;
      simpl.
    by destruct (head _).
Qed.

(** X17. The quiz page of [part_000] counts every quote of the table: it
    answers with the "not enough" state exactly when the table holds fewer
    than two rows, and otherwise hands over the array that has, for each
    row of the table in table order, the object of the seven columns this
    model has (no owner). Its stats page hands over that array whatever
    the number of rows. Neither writes. *)
Theorem legacy_quiz_counts_every_quote d :
  ((length (Quotes d) < 2)%nat ↔ (Legacy.get_game d).1.1 = not_enough None)
  ∧ ((2 ≤ length (Quotes d))%nat →
     (Legacy.get_game d).1.1
     = render (game None None
                 (Some (JArr ((λ q, JObj [("id", JNum (q_id q));
                                              ("quoteText", JStr (quoteText q));
                                              ("personName", JStr (personName q));
                                              ("location",
                                               match location q with
                                               | Some s => JStr s
                                               | None => JNull
                                               end);
                                              ("date",
                                               match date q with
                                               | Some s => JStr s
                                               | None => JNull
                                               end);
                                              ("createdAt", JNum (createdAt q));
                                              ("updatedAt", JNum (updatedAt q))]) <$> Quotes d)))
                 None))
  ∧ (Legacy.get_game d).1.2 = d
  ∧ (Legacy.get_stats d).1
    = (render (stats (JArr ((λ q, JObj [("id", JNum (q_id q));
                                           ("quoteText", JStr (quoteText q));
                                           ("personName", JStr (personName q));
                                           ("location",
                                            match location q with
                                            | Some s => JStr s
                                            | None => JNull
                                            end);
                                           ("date",
                                            match date q with
                                            | Some s => JStr s
                                            | None => JNull
                                            end);
                                           ("createdAt", JNum (createdAt q));
                                           ("updatedAt", JNum (updatedAt q))]) <$> Quotes d))
                     None), d).
Proof.
  unfold Legacy.get_game, Legacy.get_stats, try_catch, Quote_findAll, bind,
    issue, get_db, ret; simpl.
  rewrite !filter_everything.
  case_bool_decide as Hlen; simpl; repeat split; try done; try lia.
Qed.

Lemma legacy_home_lists_every_quote_witness :
  ∃ listing,
    (Legacy.get_home (db demo)).1.1 = render (home listing None)
    ∧ listing ≡ₚ Quotes (db demo).
Proof.
  destruct (legacy_home_lists_every_quote (db demo))
    as (listing & Hrun & Hperm & _).
  exists listing. by rewrite Hrun.
Defined.

Lemma legacy_routes_select_by_id_alone_witness :
  (∀ q, q ∈ Quotes (db demo) → q_id q ≠ 9)
  ∧ (Legacy.get_edit 9 (db demo)).1.1 = send 404 "Quote not found"
  ∧ (Legacy.post_delete 2 (db demo)).1.2
    = mkDB (Users (db demo)) (filter (λ q, ¬ has_id 2 q) (Quotes (db demo)))
           (UsersSeq (db demo)) (QuotesSeq (db demo)).
Proof.
  assert (∀ q, q ∈ Quotes (db demo) → q_id q ≠ 9) as Hnone.
  { intros q Hq.
    let l := eval vm_compute in (Quotes (db demo)) in change (q ∈ l) in Hq.
    rewrite !elem_of_cons, elem_of_nil in Hq.
    destruct Hq as [->|[->|[->|[]]]]; simpl; lia. }
  split; [exact Hnone|].
  destruct (legacy_routes_select_by_id_alone 9 (db demo))
    as (_ & _ & Hform & _).
  destruct (legacy_routes_select_by_id_alone 2 (db demo)) as (Hdel & _).
  split; [by apply Hform|]. by rewrite Hdel.
Defined.

Lemma legacy_quiz_counts_every_quote_witness :
  (2 ≤ length (Quotes (db demo)))%nat
  ∧ (Legacy.get_stats (db demo)).1.1
    = render
        (stats (JArr [JObj [("id", JNum 1); ("quoteText", JStr "Hi");
                            ("personName", JStr "Bob"); ("location", JNull);
                            ("date", JNull); ("createdAt", JNum 2000);
                            ("updatedAt", JNum 2000)];
                      JObj [("id", JNum 2); ("quoteText", JStr "Yo");
                            ("personName", JStr "Al");
                            ("location", JStr "Rome"); ("date", JNull);
                            ("createdAt", JNum 3000);
                            ("updatedAt", JNum 3000)];
                      JObj [("id", JNum 3); ("quoteText", JStr "Later");
                            ("personName", JStr "Cy"); ("location", JNull);
                            ("date", JNull); ("createdAt", JNum 4000);
                            ("updatedAt", JNum 4000)]])
               None)
  ∧ ∃ j, (Legacy.get_game (db demo)).1.1 = render (game None None (Some j) None)
         ∧ (Legacy.get_stats (db demo)).1.1 = render (stats j None).
Proof.
  assert (2 ≤ length (Quotes (db demo)))%nat as Hlen by (vm_compute; lia).
  split; [exact Hlen|].
  destruct (legacy_quiz_counts_every_quote (db demo))
    as (_ & Hdata & _ & Hstats).
  split.
  - rewrite Hstats. vm_compute. reflexivity.
  - eexists. split; [exact (Hdata Hlen)|]. by rewrite Hstats.
Defined.

(** ** More on logins and ids *)

(** X18. On a well-formed server a login with a user name, known or new,
    and whatever the session was bound to before, leaves exactly one user
    of that name in the table and binds the request's session to that
    user's id and name. *)
Theorem login_binds_to_the_one_user srv r name :
  wf_server srv →
  route r = POST_login (Some name) →
  ∃ u,
    filter (λ v, has_username name v) (Users (db (server (handle srv r)))) = [u]
    ∧ sessions (server (handle srv r)) !! session_id srv r
      = Some (mkSession (Some (u_id u)) (Some name))
    ∧ logged_in (mkSession (Some (u_id u)) (Some name)) (u_id u).
Proof.
  intros Hwf Hr.
  pose proof (handle_wf srv r Hwf) as Hwf'.
  assert (∃ u, u ∈ Users (db (server (handle srv r))) ∧ username u = name
               ∧ sessions (server (handle srv r)) !! session_id srv r
                 = Some (mkSession (Some (u_id u)) (Some name)))
    as (u & Hu & Hname & Hsess).
  { rewrite (handle_login _ _ _ Hr).
    destruct (head _) as [u|] eqn:Hhead; simpl.
    - apply head_Some_elem_of, list_elem_of_filter in Hhead as [Hn Hin].
      apply has_username_spec in Hn.
      exists u. rewrite Hn.
      split; [done|]. split; [done|]. apply lookup_insert_eq.
    - exists (mkUser (UsersSeq (db srv) + 1) name (now r) (now r)).
      split; [apply elem_of_app; right; by apply list_elem_of_singleton|].
      split; [done|]. apply lookup_insert_eq. }
  exists u. split; [|split; [done|]].
  - assert (u ∈ filter (λ v, has_username name v)
                  (Users (db (server (handle srv r))))) as Hin
      by (apply list_elem_of_filter; split; [by apply has_username_spec|done]).
    assert (∀ v, v ∈ filter (λ v, has_username name v)
                       (Users (db (server (handle srv r)))) → v = u) as Hall.
    { intros v [Hv Hvin]%list_elem_of_filter. apply has_username_spec in Hv.
      apply (wf_user_names _ (wf_the_db _ Hwf')); congruence. }
    pose proof (NoDup_filter (λ v, has_username name v) _
                  (NoDup_fmap_1 u_id _ (wf_user_pk _ (wf_the_db _ Hwf'))))
      as Hnd.
    destruct (filter _ _) as [|a [|b l]].
    + by apply elem_of_nil in Hin.
    + by rewrite (Hall a) by (by left).
    + apply NoDup_cons in Hnd as [Hab _]. destruct Hab.
      rewrite (Hall a), (Hall b); [by left|by right; left|by left].
  - split; [done|]. pose proof (wf_user_ids _ (wf_the_db _ Hwf') u Hu). lia.
Qed.

Lemma login_binds_to_the_one_user_witness :
  route (alice 5000 (POST_login (Some "bob"))) = POST_login (Some "bob")
  ∧ sessions demo !! "s1" = Some (mkSession (Some 1) (Some "alice"))
  ∧ ∃ u,
      filter (λ v, has_username "bob" v)
        (Users (db (server (handle demo (alice 5000 (POST_login (Some "bob")))))))
      = [u]
      ∧ sessions (server (handle demo (alice 5000 (POST_login (Some "bob")))))
          !! session_id demo (alice 5000 (POST_login (Some "bob")))
        = Some (mkSession (Some (u_id u)) (Some "bob"))
      ∧ logged_in (mkSession (Some (u_id u)) (Some "bob")) (u_id u).
Proof.
  split; [reflexivity|]. split; [vm_compute; reflexivity|].
  exact (login_binds_to_the_one_user demo (alice 5000 (POST_login (Some "bob")))
           "bob" demo_wf eq_refl).
Defined.

(** X19. On a well-formed database, a quote created and then deleted by
    its owner leaves the quotes table exactly as it was before the create;
    the id counter does not go back, so the id is not given out again. *)
Theorem create_then_delete_restores_the_rows srv r (body : QuoteForm) r' :
  wf_db (db srv) →
  route r = POST_add_quote body →
  response (handle srv r) = redirect "/home" →
  route r' = POST_delete (QuotesSeq (db srv) + 1) →
  userId (session_of (server (handle srv r)) r') = userId (session_of srv r) →
  Quotes (db (server (handle (server (handle srv r)) r'))) = Quotes (db srv)
  ∧ QuotesSeq (db (server (handle (server (handle srv r)) r')))
    = QuotesSeq (db srv) + 1.
Proof.
  intros Hwf Hr Hresp Hr' Hsame.
  destruct (handle_guarded srv r) as [uid Hin].
  { by rewrite Hr. }
  { by rewrite Hresp. }
  assert (logged_in (session_of (server (handle srv r)) r') uid) as Hin'.
  { destruct Hin as [Hs Hz]. split; [congruence|done]. }
  rewrite (handle_kept _ _ _ (dispatch_POST_delete _ _ _ Hr')).
  rewrite (post_delete_run _ _ uid) by done.
  revert Hresp.
  rewrite (handle_kept _ _ _ (dispatch_POST_add_quote _ _ _ Hr)).
  rewrite (post_add_quote_run _ _ _ uid) by done. simpl.
  destruct (f_quoteText body) as [t|], (f_personName body) as [p|];
    try discriminate.
  destruct (user_exists (db srv) uid); [|discriminate].
  simpl. intros _. split; [|done].
  rewrite filter_app, filter_cons_False, filter_nil, app_nil_r.
  - apply filter_all. intros q Hq [Hid _].
    pose proof (wf_quote_ids _ Hwf q Hq). lia.
  - intros Hnot. by apply Hnot.
Qed.

Lemma create_then_delete_restores_the_rows_witness :
  response (handle demo fourth_post) = redirect "/home"
  ∧ Quotes (db (server (handle (server (handle demo fourth_post))
                          (alice 6000 (POST_delete 4)))))
    = Quotes (db demo)
  ∧ QuotesSeq (db (server (handle (server (handle demo fourth_post))
                             (alice 6000 (POST_delete 4)))))
    = 4.
Proof.
  assert (response (handle demo fourth_post) = redirect "/home") as Hresp
    by (vm_compute; reflexivity).
  split; [exact Hresp|].
  apply (create_then_delete_restores_the_rows demo fourth_post
           (form (Some "New") (Some "Di") (Some "") None)
           (alice 6000 (POST_delete 4)) (wf_the_db _ demo_wf) eq_refl Hresp);
    vm_compute; reflexivity.
Defined.

(** X20. On a server reached from the empty one, a stored session that
    carries a user id is let through by the guard: ids start at [1], so
    the test [!req.session.userId] never takes a bound session for an
    unbound one. *)
Theorem bound_sessions_pass_the_guard rs sid s uid next :
  sessions (run initial rs) !! sid = Some s →
  userId s = Some uid →
  App.requireLogin s next = next uid.
Proof.
  intros Hs Huid.
  pose proof (run_wf initial rs wf_initial) as Hwf.
  destruct (wf_sessions _ Hwf sid s Hs uid Huid) as (u & Hu & Hid & _).
  pose proof (wf_user_ids _ (wf_the_db _ Hwf) u Hu).
  apply requireLogin_in. split; [done|lia].
Qed.

Lemma bound_sessions_pass_the_guard_witness :
  sessions (run initial demo_requests) !! "s2"
  = Some (mkSession (Some 2) (Some "bob"))
  ∧ ∀ next, App.requireLogin (mkSession (Some 2) (Some "bob")) next = next 2.
Proof.
  assert (sessions (run initial demo_requests) !! "s2"
          = Some (mkSession (Some 2) (Some "bob"))) as Hs
    by (vm_compute; reflexivity).
  split; [exact Hs|]. intros next.
  exact (bound_sessions_pass_the_guard demo_requests "s2" _ 2 next Hs eq_refl).
Defined.
